(** * PDF Outline plugin: outline conversion, search filter, page navigation

    A shallow embedding of the TypeScript sources of the plugin
    (pdf-parser.ts, view.ts, main.ts) together with the properties of the
    outline tree walks, of the destination resolution, of the page-jump
    dispatch and of the file-open handler.

    Conventions of the embedding.
    - A JavaScript string is a [string], its code units being those
      below 256. [String.prototype.toLowerCase] is a function of the host
      that the development takes as a parameter ([Host]), so that no
      property rests on what lower-casing does to a string: Unicode
      lower-casing depends on the context of a letter and changes lengths,
      and nothing is assumed of it but what a statement says. The sample
      data use the instance [latin1], the host's function on these
      strings. [trim] removes the white space below 256.
    - A JavaScript number that holds a page or a page index is a [Z].
    - A promise is the [result] it settles to: [Ok v] when it resolves with
      [v], [Throw e] when it rejects with [e]; [await] is the bind of that
      monad and [try]/[catch] is a match on it.
    - [this.searchQuery], [this.view], the module variable [pdfjsLib] are
      passed explicitly.
    - The host (workspace, PDF library, DOM) is given by records of the
      answers it makes to the calls of the plugin. *)

From Stdlib Require Import List String Ascii ZArith NArith Bool Lia Permutation.
From Stdlib.Strings Require Byte.
Import ListNotations.

Set Warnings "-register-all".
Set Default Goal Selector "!".

Local Open Scope string_scope.
Local Open Scope list_scope.

(** ** JavaScript values *)

Module Js.

(** The values a field typed [any] can hold. [VObj] and [VFun] carry an
    identity only. *)
Inductive value : Type :=
| VUndefined
| VNull
| VBool (b : bool)
| VNum (n : Z)
| VStr (s : string)
| VArr (elems : list value)
| VObj (id : nat)
| VFun (id : nat).

(** ToBoolean. *)
Definition truthy (v : value) : bool :=
  match v with
  | VUndefined | VNull => false
  | VBool b => b
  | VNum n => negb (n =? 0)%Z
  | VStr s => negb (s =? "")%string
  | VArr _ | VObj _ | VFun _ => true
  end.

(** [typeof v === 'string'], [Array.isArray(v)], [typeof v === 'function'],
    [typeof v !== 'undefined']. *)
Definition is_string (v : value) : bool :=
  match v with VStr _ => true | _ => false end.
Definition is_array (v : value) : bool :=
  match v with VArr _ => true | _ => false end.
Definition is_function (v : value) : bool :=
  match v with VFun _ => true | _ => false end.
Definition is_defined (v : value) : bool :=
  match v with VUndefined => false | _ => true end.

(** The first element of an array pattern [const [ref] = dest]. *)
Definition first (elems : list value) : value :=
  match elems with
  | [] => VUndefined
  | v :: _ => v
  end.

(** What a promise settles to. *)
Inductive result (A : Type) : Type :=
| Ok (a : A)
| Throw (e : string).
Arguments Ok {A} a.
Arguments Throw {A} e.

Definition bind {A B : Type} (r : result A) (k : A -> result B) : result B :=
  match r with
  | Ok a => k a
  | Throw e => Throw e
  end.

(** [Promise.all(xs.map(f))]: the results in the order of [xs], or the
    rejection of the first promise that rejects. *)
Definition all {A B : Type} (f : A -> result B) : list A -> result (list B) :=
  fix go (xs : list A) : result (list B) :=
    match xs with
    | [] => Ok []
    | x :: rest =>
        match f x with
        | Throw e => Throw e
        | Ok y =>
            match go rest with
            | Throw e => Throw e
            | Ok ys => Ok (y :: ys)
            end
        end
    end.

End Js.

Notation "x <- c ;; k" := (Js.bind c (fun x => k))
  (at level 61, c at next level, right associativity).

(** ** Strings *)

Module Str.

(** [String.prototype.toLowerCase] on the strings of code units below
    256, where it works unit by unit: the letters A to Z and the Latin-1
    capitals (all of 0xC0..0xDE but the multiplication sign 0xD7) move up
    by 32. *)
Definition lower_char (c : ascii) : ascii :=
  let n := N_of_ascii c in
  if ((65 <=? n) && (n <=? 90) || (192 <=? n) && (n <=? 222) && negb (n =? 215))%N
  then ascii_of_N (n + 32)
  else c.

Fixpoint toLowerCase_latin1 (s : string) : string :=
  match s with
  | EmptyString => EmptyString
  | String c s' => String (lower_char c) (toLowerCase_latin1 s')
  end.

(** [String.prototype.toUpperCase] on one code unit below 256: the
    letters a to z and the small Latin-1 letters (all of 0xE0..0xFE but the
    division sign 0xF7) move down by 32, the sharp s 0xDF becomes 'SS';
    the upper-case forms of the micro sign 0xB5 and of y with diaeresis
    0xFF lie above 255, for these the answer is [None]. *)
Definition upper_char (c : ascii) : option string :=
  let n := N_of_ascii c in
  if (n =? 223)%N then Some "SS"
  else if ((n =? 181) || (n =? 255))%N then None
  else if ((97 <=? n) && (n <=? 122) || (224 <=? n) && (n <=? 254) && negb (n =? 247))%N
       then Some (String (ascii_of_N (n - 32)) EmptyString)
       else Some (String c EmptyString).

Fixpoint toUpperCase_latin1 (s : string) : option string :=
  match s with
  | EmptyString => Some EmptyString
  | String c s' =>
      match upper_char c, toUpperCase_latin1 s' with
      | Some u, Some r => Some (u ++ r)%string
      | _, _ => None
      end
  end.

(** White space and line terminators below 256, as [trim] removes them:
    TAB, LF, VT, FF, CR, SPACE and NO-BREAK SPACE. *)
Definition is_space (c : ascii) : bool :=
  let n := N_of_ascii c in
  ((9 <=? n) && (n <=? 13) || (n =? 32) || (n =? 160))%N.

Fixpoint trimStart (s : string) : string :=
  match s with
  | EmptyString => EmptyString
  | String c s' => if is_space c then trimStart s' else s
  end.

Fixpoint trimEnd (s : string) : string :=
  match s with
  | EmptyString => EmptyString
  | String c s' =>
      match trimEnd s' with
      | EmptyString => if is_space c then EmptyString else String c EmptyString
      | t => String c t
      end
  end.

(** [String.prototype.trim]. *)
Definition trim (s : string) : string := trimEnd (trimStart s).

(** ToBoolean of a string. *)
Definition truthy (s : string) : bool := negb (s =? "").

Fixpoint startsWith (s sub : string) {struct sub} : bool :=
  match sub, s with
  | EmptyString, _ => true
  | String _ _, EmptyString => false
  | String a sub', String b s' => Ascii.eqb a b && startsWith s' sub'
  end.

(** [String.prototype.includes]: [sub] occurs in [s] at some position. *)
Fixpoint includes (s sub : string) : bool :=
  startsWith s sub ||
  match s with
  | EmptyString => false
  | String _ s' => includes s' sub
  end.

(** Every code unit of [s] is white space. *)
Fixpoint all_space (s : string) : bool :=
  match s with
  | EmptyString => true
  | String c s' => is_space c && all_space s'
  end.

End Str.

(** ** The host's lower-casing *)

(** [String.prototype.toLowerCase], as the host provides it. *)
Class Host : Type :=
  mkHost {
    toLowerCase : string -> string
  }.

(** The host on the strings of code units below 256. *)
Definition latin1 : Host := {| toLowerCase := Str.toLowerCase_latin1 |}.

(** ** The outline tree (types.ts) *)

Inductive PDFOutlineItem : Type :=
  mkItem {
    title : string;
    page : Z;
    children : list PDFOutlineItem;
    dest : Js.value
  }.

(** [{ ...item, children: c }] *)
Definition with_children (item : PDFOutlineItem) (c : list PDFOutlineItem) : PDFOutlineItem :=
  {| title := title item; page := page item; children := c; dest := dest item |}.

(** ** The search filter (view.ts) *)

(** [!this.searchQuery.trim()] *)
Definition blank (searchQuery : string) : bool :=
  negb (Str.truthy (Str.trim searchQuery)).

(** [filterOutline] reads [this.searchQuery]. Its [forEach] with [push] is
    a left fold that appends to [filtered]; the callback of the fold and
    [filterOutline] call each other, and the callback, [filterStep], is
    the one that descends into the tree: its call of [filterOutline] on
    [item.children] is written out in it, and [filterStep_eq] folds it
    back. *)
Fixpoint filterStep {host : Host} (searchQuery : string)
  (filtered : list PDFOutlineItem) (item : PDFOutlineItem) {struct item}
  : list PDFOutlineItem :=
  let query := toLowerCase searchQuery in
  let matches := Str.includes (toLowerCase (title item)) query in
  let filteredChildren :=
    if blank searchQuery then children item
    else fold_left (filterStep searchQuery) (children item) [] in
  if matches || (0 <? List.length filteredChildren)%nat
  then filtered ++ [with_children item filteredChildren]
  else filtered.

Definition filterOutline {host : Host} (searchQuery : string)
  (items : list PDFOutlineItem) : list PDFOutlineItem :=
  if blank searchQuery then items
  else fold_left (filterStep searchQuery) items [].

(** ** The outline extraction (pdf-parser.ts) *)

Module PdfJs.

(** An outline node as the PDF library delivers it: [title] is a string,
    [dest] a string, an array or null, [items] the child nodes. *)
Inductive OutlineNode : Type :=
  mkNode {
    title : string;
    dest : Js.value;
    items : list OutlineNode
  }.

(** The document proxy: what its calls settle to. [getOutline] gives
    [None] for null. *)
Record PDFDocumentProxy : Type :=
  mkDoc {
    getDestination : string -> Js.result Js.value;
    getPageIndex : Js.value -> Js.result Z;
    getOutline : Js.result (option (list OutlineNode))
  }.

Definition ArrayBuffer : Type := list Byte.byte.

(** The library object: [getDocument({ data, ... }).promise]. *)
Record Lib : Type :=
  mkLib {
    getDocument : ArrayBuffer -> Js.result PDFDocumentProxy
  }.

End PdfJs.

Record TFile : Type :=
  mkFile {
    path : string;
    extension : string
  }.

(** The host application as [parsePDFOutline] uses it: [loadPdfJs()] and
    [app.vault.readBinary(file)]. *)
Record App : Type :=
  mkApp {
    loadPdfJs : Js.result PdfJs.Lib;
    readBinary : TFile -> Js.result PdfJs.ArrayBuffer
  }.

(** The [try] block of [resolveDestination]: [Ok (Some p)] when it returns
    [p], [Ok None] when it falls through, [Throw e] when it throws. *)
Definition resolveDestination_try (doc : PdfJs.PDFDocumentProxy) (dest : Js.value)
  : Js.result (option Z) :=
  dest <- (match dest with
           | Js.VStr s => PdfJs.getDestination doc s
           | _ => Js.Ok dest
           end) ;;
  match dest with
  | Js.VArr elems =>
      let ref := Js.first elems in
      pageIndex <- PdfJs.getPageIndex doc ref ;;
      Js.Ok (Some (pageIndex + 1)%Z)
  | _ => Js.Ok None
  end.

(** The [catch] logs to the console, which is not modelled, and execution
    continues after the [try] statement. *)
Definition resolveDestination (doc : PdfJs.PDFDocumentProxy) (dest : Js.value)
  : Js.result Z :=
  match resolveDestination_try doc dest with
  | Js.Ok (Some p) => Js.Ok p
  | Js.Ok None => Js.Ok 1%Z
  | Js.Throw _ => Js.Ok 1%Z
  end.

(** [item.title || 'Untitled'] *)
Definition title_or_untitled (t : string) : string :=
  if Str.truthy t then t else "Untitled".

Fixpoint convertOutlineItemAsync (item : PdfJs.OutlineNode) (doc : PdfJs.PDFDocumentProxy)
  {struct item} : Js.result PDFOutlineItem :=
  page <- (if Js.truthy (PdfJs.dest item)
           then resolveDestination doc (PdfJs.dest item)
           else Js.Ok 1%Z) ;;
  let outlineItem :=
    {| title := title_or_untitled (PdfJs.title item);
       page := page;
       children := [];
       dest := PdfJs.dest item |} in
  if (0 <? List.length (PdfJs.items item))%nat
  then
    converted <- Js.all (fun child => convertOutlineItemAsync child doc) (PdfJs.items item) ;;
    Js.Ok (with_children outlineItem converted)
  else Js.Ok outlineItem.

(** [parsePDFOutline] with the module variable [pdfjsLib] passed in and
    out. The [catch] logs and rethrows. *)
Definition parsePDFOutline (file : TFile) (app : App) (pdfjsLib : option PdfJs.Lib)
  : Js.result (list PDFOutlineItem) * option PdfJs.Lib :=
  match (match pdfjsLib with
         | Some lib => Js.Ok lib
         | None => loadPdfJs app
         end) with
  | Js.Throw e => (Js.Throw e, pdfjsLib)
  | Js.Ok lib =>
      (arrayBuffer <- readBinary app file ;;
       doc <- PdfJs.getDocument lib arrayBuffer ;;
       outline <- PdfJs.getOutline doc ;;
       match outline with
       | None => Js.Ok []
       | Some outline =>
           if (List.length outline =? 0)%nat then Js.Ok []
           else Js.all (fun item => convertOutlineItemAsync item doc) outline
       end,
       Some lib)
  end.

(** ** The view (view.ts) *)

(** What the view's content element shows. *)
Inductive Content : Type :=
| Untouched      (* nothing in it *)
| EmptyState     (* 'No outline available. ...' *)
| NoMatching     (* the header, 'No matching items found.' *)
| Tree (items : list PDFOutlineItem) (collapsed : bool).
                 (* the header and [items] rendered by renderOutlineItems,
                    every item expanded; when [collapsed], toggleItem was
                    then called on every rendered item that has children,
                    which marks it collapsed and empties the container of
                    its children. The items are distinct objects, the
                    parser and the filter make each one anew, so that
                    [itemStates] has one state for each rendered item *)

(** [this.outlineContainer]: null, the element that is in the content
    element, or an element that [container.empty()] removed from it. *)
Inductive Container : Type :=
| NoContainer
| Attached
| Detached.

Record PDFOutlineView : Type :=
  mkView {
    outlineItems : list PDFOutlineItem;
    searchQuery : string;
    allExpanded : bool;
    outlineContainer : Container;
    content : Content
  }.

(** [new PDFOutlineView(leaf)]: the field initialisers. *)
Definition new_view : PDFOutlineView :=
  {| outlineItems := []; searchQuery := ""; allExpanded := true;
     outlineContainer := NoContainer; content := Untouched |}.

(** Without a container nothing is done. What is rendered into a
    container that is no longer in the content element does not show.
    With the container in place, the filtered outline is rendered, or the
    message when nothing is left; when [allExpanded] is off every item
    with children is then collapsed. *)
Definition renderFilteredOutline {host : Host} (v : PDFOutlineView) : PDFOutlineView :=
  match outlineContainer v with
  | NoContainer => v
  | Detached => v
  | Attached =>
      let filtered := filterOutline (searchQuery v) (outlineItems v) in
      {| outlineItems := outlineItems v;
         searchQuery := searchQuery v;
         allExpanded := allExpanded v;
         outlineContainer := Attached;
         content := if (List.length filtered =? 0)%nat
                    then NoMatching
                    else Tree filtered (negb (allExpanded v)) |}
  end.

(** [container.empty()] removes what the content element holds, the
    outline container with it; a new container comes with the header. *)
Definition displayOutline {host : Host} (v : PDFOutlineView)
  (outline : list PDFOutlineItem) : PDFOutlineView :=
  let removed := match outlineContainer v with
                 | Attached => Detached
                 | c => c
                 end in
  if (List.length outline =? 0)%nat
  then {| outlineItems := outline;
          searchQuery := searchQuery v;
          allExpanded := allExpanded v;
          outlineContainer := removed;
          content := EmptyState |}
  else renderFilteredOutline
         {| outlineItems := outline;
            searchQuery := searchQuery v;
            allExpanded := allExpanded v;
            outlineContainer := Attached;
            content := Untouched |}.

(** The listener of the search input (createHeader): the typed text is
    stored in lower case and the outline is rendered again. The input is
    part of the header, which is in the content element when the outline
    container is ([Attached]). *)
Definition onSearchInput {host : Host} (v : PDFOutlineView) (value : string)
  : PDFOutlineView :=
  renderFilteredOutline
    {| outlineItems := outlineItems v;
       searchQuery := toLowerCase value;
       allExpanded := allExpanded v;
       outlineContainer := outlineContainer v;
       content := content v |}.

(** *** Page navigation *)

Module Nav.

(** A DOM element as [navigateToPageInLeaf] uses it: the answer of
    [querySelector('input[type="number"]')], an input element or null. *)
Record Element : Type :=
  mkElement { numberInput : option nat }.

Record PdfViewer : Type :=
  mkViewer { currentPageNumber : Js.value }.

(** The view object of a PDF leaf, by the properties the function reads. *)
Record PdfView : Type :=
  mkPdfView {
    file : option TFile;
    goToPage : Js.value;
    jumpToPage : Js.value;
    navigateToPage : Js.value;
    pdfViewer : option PdfViewer;
    containerEl : option Element
  }.

Record Leaf : Type :=
  mkLeaf {
    view : option PdfView;
    leafContainerEl : option Element
  }.

(** What the function does to the outside. *)
Inductive Effect : Type :=
| CallGoToPage (page : Z)
| CallJumpToPage (page : Z)
| CallNavigateToPage (page : Z)
| AssignCurrentPageNumber (page : Z)
| SetInputValue (input : nat) (page : Z)
| DispatchChange (input : nat)
| Warn (page : Z) (path : string).

(** [l.view?.file?.path === file.path] *)
Definition shows (f : TFile) (l : Leaf) : bool :=
  match view l with
  | Some v =>
      match file v with
      | Some g => (path g =? path f)%string
      | None => false
      end
  | None => false
  end.

(** [pdfLeaves.find(...) || pdfLeaves[0]] *)
Definition find_leaf (pdfLeaves : list Leaf) (f : TFile) : option Leaf :=
  match find (shows f) pdfLeaves with
  | Some l => Some l
  | None => hd_error pdfLeaves
  end.

(** [pdfLeaves] is the answer of [workspace.getLeavesOfType('pdf')]. *)
Definition navigateToPageInLeaf (pdfLeaves : list Leaf)
  (page : Z) (f : TFile) (leaf : option Leaf) : list Effect :=
  let leaf := match leaf with
              | Some l => Some l
              | None => find_leaf pdfLeaves f
              end in
  match leaf with
  | None => []
  | Some leaf =>
      match view leaf with
      | None => []
      | Some pdfView =>
          if Js.is_function (goToPage pdfView) then [CallGoToPage page]
          else if Js.is_function (jumpToPage pdfView) then [CallJumpToPage page]
          else if Js.is_function (navigateToPage pdfView) then [CallNavigateToPage page]
          else
            match (match pdfViewer pdfView with
                   | Some viewer =>
                       if Js.is_defined (currentPageNumber viewer)
                       then Some [AssignCurrentPageNumber page]
                       else None
                   | None => None
                   end) with
            | Some done => done
            | None =>
                let pdfContainer :=
                  match containerEl pdfView with
                  | Some el => Some el
                  | None => leafContainerEl leaf
                  end in
                match (match pdfContainer with
                       | Some el =>
                           match numberInput el with
                           | Some pageInput =>
                               Some [SetInputValue pageInput page; DispatchChange pageInput]
                           | None => None
                           end
                       | None => None
                       end) with
                | Some done => done
                | None => [Warn page (path f)]
                end
            end
      end
  end.

End Nav.

(** ** The plugin (main.ts) *)

(** The plugin object with the module variable [pdfjsLib] of the parser. *)
Record Plugin : Type :=
  mkPlugin {
    view : option PDFOutlineView;
    pdfjsLib : option PdfJs.Lib
  }.

Definition set_view (st : Plugin) (v : option PDFOutlineView) : Plugin :=
  {| view := v; pdfjsLib := pdfjsLib st |}.

(** [if (this.view) this.view.displayOutline(outline)] *)
Definition display_if_view {host : Host} (st : Plugin) (outline : list PDFOutlineItem)
  : Plugin :=
  match view st with
  | Some v => set_view st (Some (displayOutline v outline))
  | None => st
  end.

(** The workspace as [activateView] uses it. A call into the host may make
    the host build the view with the factory the plugin registered,
    [(leaf) => (this.view = new PDFOutlineView(leaf))]: the boolean of
    [setViewState] and of [revealLeaf] says whether it did. *)
Record Workspace : Type :=
  mkWorkspace {
    outlineLeaves : list nat;                     (* getLeavesOfType(PDF_OUTLINE_VIEW_TYPE) *)
    getRightLeaf : option nat;                    (* getRightLeaf(false), null or a leaf *)
    setViewState : nat -> bool * Js.result unit;
    revealLeaf : nat -> bool * Js.result unit
  }.

(** The registered factory, run by the host. *)
Definition run_factory (built : bool) (st : Plugin) : Plugin :=
  if built then set_view st (Some new_view) else st.

Definition activateView (ws : Workspace) (st : Plugin) : Plugin * Js.result unit :=
  let after_set : Plugin * Js.result nat :=
    match hd_error (outlineLeaves ws) with
    | Some leaf => (st, Js.Ok leaf)
    | None =>
        match getRightLeaf ws with
        | None => (st, Js.Throw "TypeError")
        | Some leaf =>
            let (built, r) := setViewState ws leaf in
            (run_factory built st, _ <- r ;; Js.Ok leaf)
        end
    end in
  match after_set with
  | (st, Js.Throw e) => (st, Js.Throw e)
  | (st, Js.Ok leaf) =>
      let (built, r) := revealLeaf ws leaf in
      (run_factory built st, r)
  end.

Definition updateOutlineForFile {host : Host} (ws : Workspace) (app : App) (f : TFile)
  (st : Plugin) : Plugin * Js.result unit :=
  let (st, activated) :=
    match view st with
    | None => activateView ws st
    | Some _ => (st, Js.Ok tt)
    end in
  match activated with
  | Js.Throw e => (st, Js.Throw e)
  | Js.Ok _ =>
      let (parsed, lib) := parsePDFOutline f app (pdfjsLib st) in
      let st := {| view := view st; pdfjsLib := lib |} in
      match parsed with
      | Js.Ok outline => (display_if_view st outline, Js.Ok tt)
      | Js.Throw _ => (display_if_view st [], Js.Ok tt)
      end
  end.

(** The listener of the workspace event 'file-open'. *)
Definition onFileOpen {host : Host} (ws : Workspace) (app : App) (f : option TFile)
  (st : Plugin) : Plugin * Js.result unit :=
  match f with
  | Some f =>
      if (extension f =? "pdf")%string
      then updateOutlineForFile ws app f st
      else (display_if_view st [], Js.Ok tt)
  | None => (display_if_view st [], Js.Ok tt)
  end.

(** ** The tree walks with the visited nodes recorded

    The same two functions, each returning next to its result the nodes on
    which its body ran, in the order in which the bodies are entered when
    every awaited call settles at once. *)

Fixpoint filterStep_visits {host : Host} (searchQuery : string)
  (acc : list PDFOutlineItem * list PDFOutlineItem)
  (item : PDFOutlineItem) {struct item}
  : list PDFOutlineItem * list PDFOutlineItem :=
  let (filtered, visited) := acc in
  let visited := visited ++ [item] in
  let query := toLowerCase searchQuery in
  let matches := Str.includes (toLowerCase (title item)) query in
  let (filteredChildren, visited) :=
    if blank searchQuery then (children item, visited)
    else fold_left (filterStep_visits searchQuery) (children item) ([], visited) in
  if matches || (0 <? List.length filteredChildren)%nat
  then (filtered ++ [with_children item filteredChildren], visited)
  else (filtered, visited).

Definition filterOutline_visits {host : Host} (searchQuery : string)
  (items : list PDFOutlineItem) : list PDFOutlineItem * list PDFOutlineItem :=
  if blank searchQuery then (items, [])
  else fold_left (filterStep_visits searchQuery) items ([], []).

Fixpoint convertOutlineItemAsync_visits (item : PdfJs.OutlineNode)
  (doc : PdfJs.PDFDocumentProxy) {struct item}
  : Js.result (PDFOutlineItem * list PdfJs.OutlineNode) :=
  page <- (if Js.truthy (PdfJs.dest item)
           then resolveDestination doc (PdfJs.dest item)
           else Js.Ok 1%Z) ;;
  let outlineItem :=
    {| title := title_or_untitled (PdfJs.title item);
       page := page;
       children := [];
       dest := PdfJs.dest item |} in
  if (0 <? List.length (PdfJs.items item))%nat
  then
    converted <- Js.all (fun child => convertOutlineItemAsync_visits child doc)
                   (PdfJs.items item) ;;
    Js.Ok (with_children outlineItem (map fst converted),
           item :: List.concat (map snd converted))
  else Js.Ok (outlineItem, [item]).

(** ** Notions of the specification *)

(** The nodes of a subtree, the root first and the children in order. *)
Fixpoint nodes (item : PDFOutlineItem) : list PDFOutlineItem :=
  item :: flat_map nodes (children item).

Definition descendants (item : PDFOutlineItem) : list PDFOutlineItem :=
  flat_map nodes (children item).

Fixpoint outline_nodes (item : PdfJs.OutlineNode) : list PdfJs.OutlineNode :=
  item :: flat_map outline_nodes (PdfJs.items item).

(** The test the filter makes on a title: the lower-cased title
    includes the lower-cased query. *)
Definition matches {host : Host} (searchQuery : string) (item : PDFOutlineItem) : bool :=
  Str.includes (toLowerCase (title item)) (toLowerCase searchQuery).

(** The title of the node or of one of its descendants matches. *)
Definition kept {host : Host} (searchQuery : string) (item : PDFOutlineItem) : bool :=
  matches searchQuery item || existsb (matches searchQuery) (descendants item).

(** A kept node as the filter rebuilds it. *)
Definition rebuilt {host : Host} (searchQuery : string) (item : PDFOutlineItem)
  : PDFOutlineItem :=
  with_children item (filterOutline searchQuery (children item)).

(** Two strings of code units below 256 that differ in case only: their
    lower-case forms are the same, or their upper-case forms are. *)
Definition case_variant (a b : string) : Prop :=
  Str.toLowerCase_latin1 a = Str.toLowerCase_latin1 b \/
  exists u : string,
    Str.toUpperCase_latin1 a = Some u /\ Str.toUpperCase_latin1 b = Some u.

(** [t] contains [q] as a substring when case is ignored: some part of
    [t] differs from [q] in case only. *)
Definition contains_ignoring_case (t q : string) : Prop :=
  exists pre mid post : string,
    t = (pre ++ mid ++ post)%string /\ case_variant mid q.

(** [chain] is a root-to-node chain in the forest [items]: its head is one
    of [items] and each next element is a child of the one before. *)
Inductive chain_in : list PDFOutlineItem -> list PDFOutlineItem -> Prop :=
| chain_last (items : list PDFOutlineItem) (n : PDFOutlineItem) :
    In n items -> chain_in items [n]
| chain_step (items : list PDFOutlineItem) (n : PDFOutlineItem)
    (rest : list PDFOutlineItem) :
    In n items -> chain_in (children n) rest -> chain_in items (n :: rest).

(** The named-destination lookup that precedes the page lookup. *)
Definition looked_up (doc : PdfJs.PDFDocumentProxy) (dest : Js.value)
  : Js.result Js.value :=
  match dest with
  | Js.VStr s => PdfJs.getDestination doc s
  | _ => Js.Ok dest
  end.

(** The page lookup of the PDF library answers with page indexes, which
    start at 0. *)
Definition indexes_pages (doc : PdfJs.PDFDocumentProxy) : Prop :=
  forall (ref : Js.value) (i : Z), PdfJs.getPageIndex doc ref = Js.Ok i -> (0 <= i)%Z.

(** The five navigation strategies, in the order of the source. *)
Inductive Strategy : Type :=
| ByGoToPage
| ByJumpToPage
| ByNavigateToPage
| ByCurrentPageNumber
| ByPageInput.

Definition strategies : list Strategy :=
  [ByGoToPage; ByJumpToPage; ByNavigateToPage; ByCurrentPageNumber; ByPageInput].

(** The element in which the page input is looked for. *)
Definition container_of (leaf : Nav.Leaf) (v : Nav.PdfView) : option Nav.Element :=
  match Nav.containerEl v with
  | Some el => Some el
  | None => Nav.leafContainerEl leaf
  end.

Definition page_input (leaf : Nav.Leaf) (v : Nav.PdfView) : option nat :=
  match container_of leaf v with
  | Some el => Nav.numberInput el
  | None => None
  end.

Definition applicable (leaf : Nav.Leaf) (v : Nav.PdfView) (s : Strategy) : bool :=
  match s with
  | ByGoToPage => Js.is_function (Nav.goToPage v)
  | ByJumpToPage => Js.is_function (Nav.jumpToPage v)
  | ByNavigateToPage => Js.is_function (Nav.navigateToPage v)
  | ByCurrentPageNumber =>
      match Nav.pdfViewer v with
      | Some viewer => Js.is_defined (Nav.currentPageNumber viewer)
      | None => false
      end
  | ByPageInput =>
      match page_input leaf v with
      | Some _ => true
      | None => false
      end
  end.

(** What invoking a strategy does. *)
Definition invoke (leaf : Nav.Leaf) (v : Nav.PdfView) (page : Z) (s : Strategy)
  : list Nav.Effect :=
  match s with
  | ByGoToPage => [Nav.CallGoToPage page]
  | ByJumpToPage => [Nav.CallJumpToPage page]
  | ByNavigateToPage => [Nav.CallNavigateToPage page]
  | ByCurrentPageNumber => [Nav.AssignCurrentPageNumber page]
  | ByPageInput =>
      match page_input leaf v with
      | Some input => [Nav.SetInputValue input page; Nav.DispatchChange input]
      | None => []
      end
  end.

(** The leaf the function works on. *)
Definition target_leaf (pdfLeaves : list Nav.Leaf) (f : TFile) (leaf : option Nav.Leaf)
  : option Nav.Leaf :=
  match leaf with
  | Some l => Some l
  | None => Nav.find_leaf pdfLeaves f
  end.

(** The document [parsePDFOutline] works on: the library, cached or
    loaded, opens the bytes of the file. *)
Definition opened_document (f : TFile) (app : App) (pdfjsLib : option PdfJs.Lib)
  : Js.result PdfJs.PDFDocumentProxy :=
  lib <- (match pdfjsLib with
          | Some lib => Js.Ok lib
          | None => loadPdfJs app
          end) ;;
  arrayBuffer <- readBinary app f ;;
  PdfJs.getDocument lib arrayBuffer.

(** The invariant of the items of a parsed outline. *)
Definition well_formed_item (item : PDFOutlineItem) : Prop :=
  (1 <= page item)%Z /\ title item <> "".

(** The first step of [updateOutlineForFile]:
    [if (!this.view) await this.activateView()]. *)
Definition ensure_view (ws : Workspace) (st : Plugin) : Plugin * Js.result unit :=
  match view st with
  | None => activateView ws st
  | Some _ => (st, Js.Ok tt)
  end.

(** The plugin has no view, or its view holds and shows the empty
    outline. *)
Definition shows_empty_outline (st : Plugin) : Prop :=
  forall v, view st = Some v -> outlineItems v = [] /\ content v = EmptyState.

Definition is_warning (e : Nav.Effect) : bool :=
  match e with
  | Nav.Warn _ _ => true
  | _ => false
  end.

(** ** Sample data *)

Module Sample.

Definition leaf (t : string) (p : Z) : PDFOutlineItem :=
  {| title := t; page := p; children := []; dest := Js.VNull |}.

Definition part_one : PDFOutlineItem :=
  {| title := "Part One"; page := 3;
     children := [leaf "Introduction" 4; leaf "Methods" 9];
     dest := Js.VNull |}.

Definition part_two : PDFOutlineItem :=
  {| title := "INTRO to Part Two"; page := 20;
     children := [leaf "Results" 21];
     dest := Js.VNull |}.

Definition outline : list PDFOutlineItem :=
  [leaf "Preface" 1; part_one; part_two].

(** The sharp s, code unit 0xDF, and a title with it. *)
Definition eszett : string := String (ascii_of_N 223) EmptyString.

Definition strasse : string := ("Stra" ++ eszett ++ "e")%string.

(** An outline as the PDF library gives it: a chapter with a named
    destination and two sections, one with an explicit destination, one
    without a title and with a name that is not defined. *)
Definition section_a : PdfJs.OutlineNode :=
  {| PdfJs.title := "Section A";
     PdfJs.dest := Js.VArr [Js.VObj 11; Js.VStr "XYZ"];
     PdfJs.items := [] |}.

Definition section_b : PdfJs.OutlineNode :=
  {| PdfJs.title := ""; PdfJs.dest := Js.VStr "missing"; PdfJs.items := [] |}.

Definition chapter : PdfJs.OutlineNode :=
  {| PdfJs.title := "Chapter 1";
     PdfJs.dest := Js.VStr "chapter1";
     PdfJs.items := [section_a; section_b] |}.

Definition appendix : PdfJs.OutlineNode :=
  {| PdfJs.title := "Appendix"; PdfJs.dest := Js.VNull; PdfJs.items := [] |}.

(** A document whose page references are the objects [VObj n], on page
    index [n]. *)
Definition doc : PdfJs.PDFDocumentProxy :=
  {| PdfJs.getDestination :=
       fun name =>
         if (name =? "chapter1")%string then Js.Ok (Js.VArr [Js.VObj 7; Js.VStr "Fit"])
         else if (name =? "broken")%string then Js.Throw "Error"
         else Js.Ok Js.VNull;
     PdfJs.getPageIndex :=
       fun ref =>
         match ref with
         | Js.VObj n => Js.Ok (Z.of_nat n)
         | _ => Js.Throw "Invalid page reference"
         end;
     PdfJs.getOutline := Js.Ok (Some [chapter; appendix]) |}.

Definition empty_doc : PdfJs.PDFDocumentProxy :=
  {| PdfJs.getDestination := PdfJs.getDestination doc;
     PdfJs.getPageIndex := PdfJs.getPageIndex doc;
     PdfJs.getOutline := Js.Ok None |}.

Definition lib : PdfJs.Lib :=
  {| PdfJs.getDocument :=
       fun bytes => match bytes with
                    | [] => Js.Ok empty_doc
                    | _ => Js.Ok doc
                    end |}.

Definition book : TFile := {| path := "books/book.pdf"; extension := "pdf" |}.
Definition note : TFile := {| path := "notes/today.md"; extension := "md" |}.

Definition app : App :=
  {| loadPdfJs := Js.Ok lib;
     readBinary := fun f => if (path f =? "books/book.pdf")%string
                            then Js.Ok [Byte.x25; Byte.x50; Byte.x44; Byte.x46]
                            else Js.Ok [] |}.

(** A host on which the PDF library cannot be loaded. *)
Definition broken_app : App :=
  {| loadPdfJs := Js.Throw "Error"; readBinary := readBinary app |}.

Definition workspace : Workspace :=
  {| outlineLeaves := [];
     getRightLeaf := Some 1%nat;
     setViewState := fun _ => (true, Js.Ok tt);
     revealLeaf := fun _ => (false, Js.Ok tt) |}.

(** The plugin while the outline of a book is shown. *)
Definition showing : Plugin :=
  {| view := Some (displayOutline (host := latin1) new_view outline);
     pdfjsLib := Some lib |}.

Definition no_view : Plugin := {| view := None; pdfjsLib := None |}.

(** A PDF view that has only [jumpToPage] and an inner viewer. *)
Definition pdf_view : Nav.PdfView :=
  {| Nav.file := Some book;
     Nav.goToPage := Js.VUndefined;
     Nav.jumpToPage := Js.VFun 1;
     Nav.navigateToPage := Js.VUndefined;
     Nav.pdfViewer := Some {| Nav.currentPageNumber := Js.VNum 1 |};
     Nav.containerEl := Some {| Nav.numberInput := Some 5%nat |} |}.

(** A PDF view with none of the properties the function looks for. *)
Definition bare_view : Nav.PdfView :=
  {| Nav.file := Some note;
     Nav.goToPage := Js.VUndefined;
     Nav.jumpToPage := Js.VUndefined;
     Nav.navigateToPage := Js.VNum 3;
     Nav.pdfViewer := Some {| Nav.currentPageNumber := Js.VUndefined |};
     Nav.containerEl := None |}.

Definition pdf_leaf : Nav.Leaf :=
  {| Nav.view := Some pdf_view; Nav.leafContainerEl := None |}.

Definition bare_leaf : Nav.Leaf :=
  {| Nav.view := Some bare_view;
     Nav.leafContainerEl := Some {| Nav.numberInput := None |} |}.

Definition closed_leaf : Nav.Leaf :=
  {| Nav.view := None; Nav.leafContainerEl := None |}.

End Sample.

(** ** Further functions of the sources *)

(** [String.prototype.endsWith]: some tail of [s] is [suffix]. *)
Fixpoint endsWith (s suffix : string) : bool :=
  (s =? suffix)%string ||
  match s with
  | EmptyString => false
  | String _ s' => endsWith s' suffix
  end.

(** *** jumpToPage (view.ts) *)

Module Jump.

(** The workspace as [jumpToPage] uses it: the active file, the PDF leaves
    at the time of the click, what [openLinkText] settles to, and the PDF
    leaves 300 ms after it resolved. *)
Record Workspace : Type :=
  mkWorkspace {
    getActiveFile : option TFile;
    pdfLeaves : list Nav.Leaf;
    openLinkText : string -> Js.result unit;
    pdfLeavesLater : list Nav.Leaf
  }.

Inductive Effect : Type :=
| SetActiveLeaf (leaf : Nav.Leaf)
| OpenLinkText (path : string)
| Now (e : Nav.Effect)          (* done by the call of navigateToPageInLeaf *)
| Later (e : Nav.Effect).       (* done by the call made from the timer *)

(** [setActiveLeaf(targetLeaf)] and [navigateToPageInLeaf(page, activeFile,
    targetLeaf)] *)
Definition activate_and_navigate (ws : Workspace) (page : Z) (activeFile : TFile)
  (targetLeaf : Nav.Leaf) : list Effect :=
  SetActiveLeaf targetLeaf ::
  map Now (Nav.navigateToPageInLeaf (pdfLeaves ws) page activeFile (Some targetLeaf)).

Definition jumpToPage (ws : Workspace) (page : Z) : list Effect :=
  match getActiveFile ws with
  | None => []
  | Some activeFile =>
      if negb (endsWith (path activeFile) ".pdf") then []
      else
        let allLeaves := pdfLeaves ws in
        match find (Nav.shows activeFile) allLeaves with
        | Some targetLeaf => activate_and_navigate ws page activeFile targetLeaf
        | None =>
            if (0 <? List.length allLeaves)%nat
            then
              match hd_error allLeaves with
              | Some targetLeaf => activate_and_navigate ws page activeFile targetLeaf
              | None => []
              end
            else
              OpenLinkText (path activeFile) ::
              match openLinkText ws (path activeFile) with
              | Js.Ok _ =>
                  map Later
                    (Nav.navigateToPageInLeaf (pdfLeavesLater ws) page activeFile None)
              | Js.Throw _ => []
              end
        end
  end.

End Jump.

(** *** The page map (pdf-parser.ts) *)

Module PageMap.

(** [Map<any, number>] with the page references as keys: a reference is
    an object, known by its identity; the entries are in the order of
    their insertion. *)
Definition t : Type := list (nat * Z).

(** [pageMap.set(key, value)]: the entry of a key that is there is
    replaced where it is, a new key is added at the end. *)
Fixpoint set (m : t) (key : nat) (value : Z) : t :=
  match m with
  | [] => [(key, value)]
  | (k, v) :: rest =>
      if (k =? key)%nat then (key, value) :: rest
      else (k, v) :: set rest key value
  end.

(** [pageMap.get(key)], [None] for undefined. *)
Fixpoint get (m : t) (key : nat) : option Z :=
  match m with
  | [] => None
  | (k, v) :: rest => if (k =? key)%nat then Some v else get rest key
  end.

(** [pageMap.get(dest)] on a value of any kind: only an object can be one
    of the keys. *)
Definition get_value (m : t) (key : Js.value) : option Z :=
  match key with
  | Js.VObj id => get m id
  | _ => None
  end.

(** The pages of a document: [doc.numPages] and what [doc.getPage(i)]
    settles to, a page given by its [ref], null or an object. *)
Record Pages : Type :=
  mkPages {
    numPages : nat;
    getPage : nat -> Js.result (option nat)
  }.

(** The loop [for (let i = 1; i <= numPages; i++)] from page [i] on, with
    [left] pages to go; a rejected [getPage] leaves the loop for the
    [catch], which logs, and the map built so far is returned. *)
Fixpoint buildPageMap_from (doc : Pages) (left i : nat) (pageMap : t) : t :=
  match left with
  | O => pageMap
  | S left' =>
      match getPage doc i with
      | Js.Throw _ => pageMap
      | Js.Ok pageRef =>
          buildPageMap_from doc left' (S i)
            (match pageRef with
             | Some r => set pageMap r (Z.of_nat i)
             | None => pageMap
             end)
      end
  end.

Definition buildPageMap (doc : Pages) : t :=
  buildPageMap_from doc (numPages doc) 1 [].

(** [pageMap.get(item.dest) ?? 1] *)
Definition page_of (pageMap : t) (dest : Js.value) : Z :=
  match get_value pageMap dest with
  | Some p => p
  | None => 1%Z
  end.

Fixpoint convertOutlineItem (item : PdfJs.OutlineNode) (pageMap : t)
  {struct item} : PDFOutlineItem :=
  let page := page_of pageMap (PdfJs.dest item) in
  let outlineItem :=
    {| title := title_or_untitled (PdfJs.title item);
       page := page;
       children := [];
       dest := PdfJs.dest item |} in
  if (0 <? List.length (PdfJs.items item))%nat
  then with_children outlineItem
         (map (fun child => convertOutlineItem child pageMap) (PdfJs.items item))
  else outlineItem.

End PageMap.

(** *** Further notions of the specification *)

(** [l1] is [l2] with some elements left out. *)
Inductive subseq {A : Type} : list A -> list A -> Prop :=
| subseq_nil : subseq [] []
| subseq_skip (x : A) (l1 l2 : list A) : subseq l1 l2 -> subseq l1 (x :: l2)
| subseq_keep (x : A) (l1 l2 : list A) : subseq l1 l2 -> subseq (x :: l1) (x :: l2).

(** What an item shows of itself: all but its children. *)
Definition label (item : PDFOutlineItem) : string * Z * Js.value :=
  (title item, page item, dest item).

(** The page [convertOutlineItemAsync] gives to a destination. *)
Definition page_for (doc : PdfJs.PDFDocumentProxy) (dest : Js.value) : Z :=
  if Js.truthy dest
  then match resolveDestination doc dest with
       | Js.Ok p => p
       | Js.Throw _ => 1%Z
       end
  else 1%Z.

(** The conversion of a node without promises. *)
Fixpoint converted (doc : PdfJs.PDFDocumentProxy) (item : PdfJs.OutlineNode)
  : PDFOutlineItem :=
  {| title := title_or_untitled (PdfJs.title item);
     page := page_for doc (PdfJs.dest item);
     children := map (converted doc) (PdfJs.items item);
     dest := PdfJs.dest item |}.

(** An item with all the pages of its subtree set to 0. *)
Fixpoint forget_pages (item : PDFOutlineItem) : PDFOutlineItem :=
  {| title := title item;
     page := 0;
     children := map forget_pages (children item);
     dest := dest item |}.

(** The outcomes [navigateToPageInLeaf] can have for a page and a file. *)
Definition navigation_outcomes (page : Z) (f : TFile) (effects : list Nav.Effect) : Prop :=
  effects = [] \/
  effects = [Nav.CallGoToPage page] \/
  effects = [Nav.CallJumpToPage page] \/
  effects = [Nav.CallNavigateToPage page] \/
  effects = [Nav.AssignCurrentPageNumber page] \/
  (exists input, effects = [Nav.SetInputValue input page; Nav.DispatchChange input]) \/
  effects = [Nav.Warn page (path f)].

(** *** More sample data *)

Module Sample2.

(** Three pages, the second without a reference. *)
Definition pages : PageMap.Pages :=
  {| PageMap.numPages := 3;
     PageMap.getPage :=
       fun i => match i with
                | 1%nat => Js.Ok (Some 40%nat)
                | 2%nat => Js.Ok None
                | 3%nat => Js.Ok (Some 42%nat)
                | _ => Js.Throw "Invalid page request"
                end |}.

(** A workspace with the book active and two PDF leaves. *)
Definition reading : Jump.Workspace :=
  {| Jump.getActiveFile := Some Sample.book;
     Jump.pdfLeaves := [Sample.bare_leaf; Sample.pdf_leaf];
     Jump.openLinkText := fun _ => Js.Ok tt;
     Jump.pdfLeavesLater := [Sample.bare_leaf; Sample.pdf_leaf] |}.

(** The book active, no PDF leaf yet; one is there after the link is
    opened. *)
Definition unopened : Jump.Workspace :=
  {| Jump.getActiveFile := Some Sample.book;
     Jump.pdfLeaves := [];
     Jump.openLinkText := fun _ => Js.Ok tt;
     Jump.pdfLeavesLater := [Sample.pdf_leaf] |}.

(** A note is the active file. *)
Definition writing : Jump.Workspace :=
  {| Jump.getActiveFile := Some Sample.note;
     Jump.pdfLeaves := [Sample.pdf_leaf];
     Jump.openLinkText := fun _ => Js.Ok tt;
     Jump.pdfLeavesLater := [Sample.pdf_leaf] |}.

(** A workspace in which the side bar cannot take a new leaf. *)
Definition no_right_leaf : Workspace :=
  {| outlineLeaves := [];
     getRightLeaf := None;
     setViewState := fun _ => (true, Js.Ok tt);
     revealLeaf := fun _ => (false, Js.Ok tt) |}.

(** A document whose outline cannot be read. *)
Definition unreadable_doc : PdfJs.PDFDocumentProxy :=
  {| PdfJs.getDestination := PdfJs.getDestination Sample.doc;
     PdfJs.getPageIndex := PdfJs.getPageIndex Sample.doc;
     PdfJs.getOutline := Js.Throw "Invalid PDF structure" |}.

Definition unreadable_app : App :=
  {| loadPdfJs := Js.Ok {| PdfJs.getDocument := fun _ => Js.Ok unreadable_doc |};
     readBinary := readBinary Sample.app |}.

End Sample2.

(** * Properties *)

(** ** Induction on the two trees *)

Section TreeInduction.

Variable P : PDFOutlineItem -> Prop.
Hypothesis step : forall item, Forall P (children item) -> P item.

Lemma PDFOutlineItem_tree_ind : forall item, P item.
Proof.
  fix IH 1. intros [t p cs d]. apply step. simpl.
  induction cs as [|c cs IHcs]; constructor.
  - apply IH.
  - exact IHcs.
Qed.

End TreeInduction.

Section NodeInduction.

Variable P : PdfJs.OutlineNode -> Prop.
Hypothesis step : forall item, Forall P (PdfJs.items item) -> P item.

Lemma OutlineNode_tree_ind : forall item, P item.
Proof.
  fix IH 1. intros [t d cs]. apply step. simpl.
  induction cs as [|c cs IHcs]; constructor.
  - apply IH.
  - exact IHcs.
Qed.

End NodeInduction.

(** ** Strings *)

Module StrFacts.

Import Str.

Lemma app_empty_r (s : string) : (s ++ "")%string = s.
Proof. induction s as [|c s IH]; simpl; [reflexivity | now rewrite IH]. Qed.

Lemma app_assoc (a b c : string) : ((a ++ b) ++ c = a ++ b ++ c)%string.
Proof. induction a as [|x a IH]; simpl; [reflexivity | now rewrite IH]. Qed.

Lemma startsWith_spec (s sub : string) :
  startsWith s sub = true <-> exists post, s = (sub ++ post)%string.
Proof.
  revert s. induction sub as [|a sub IH]; intros s; simpl.
  - split; [intros _; now exists s | reflexivity].
  - destruct s as [|b s].
    + split; [discriminate | intros [post H]; discriminate].
    + rewrite andb_true_iff, Ascii.eqb_eq, IH. split.
      * intros [-> [post ->]]. now exists post.
      * intros [post H]. injection H as -> ->. split; [reflexivity | now exists post].
Qed.

Lemma includes_spec (s sub : string) :
  includes s sub = true <-> exists pre post, s = (pre ++ sub ++ post)%string.
Proof.
  induction s as [|c s IH].
  - simpl. rewrite orb_false_r, startsWith_spec. split.
    + intros [post H]. now exists "", post.
    + intros [[|x pre] [post H]]; [now exists post | discriminate].
  - cbn [includes]. rewrite orb_true_iff, startsWith_spec, IH. split.
    + intros [[post H] | [pre [post H]]].
      * now exists "", post.
      * exists (String c pre), post. simpl. now rewrite H.
    + intros [[|x pre] [post H]].
      * left. now exists post.
      * right. simpl in H. injection H as _ ->. now exists pre, post.
Qed.

Lemma lower_char_idem (c : ascii) : lower_char (lower_char c) = lower_char c.
Proof. destruct c as [[] [] [] [] [] [] [] []]; reflexivity. Qed.

Lemma is_space_lower_char (c : ascii) : is_space (lower_char c) = is_space c.
Proof. destruct c as [[] [] [] [] [] [] [] []]; reflexivity. Qed.

Lemma toLowerCase_latin1_idem (s : string) :
  toLowerCase_latin1 (toLowerCase_latin1 s) = toLowerCase_latin1 s.
Proof.
  induction s as [|c s IH]; simpl; [reflexivity|].
  now rewrite lower_char_idem, IH.
Qed.

Lemma all_space_toLowerCase_latin1 (s : string) :
  all_space (toLowerCase_latin1 s) = all_space s.
Proof.
  induction s as [|c s IH]; simpl; [reflexivity|].
  now rewrite is_space_lower_char, IH.
Qed.

Lemma trimEnd_empty (s : string) : trimEnd s = "" <-> all_space s = true.
Proof.
  induction s as [|c s IH]; simpl; [tauto|].
  rewrite andb_true_iff, <- IH.
  destruct (trimEnd s) as [|x t]; destruct (is_space c); split;
    try tauto; try discriminate; intros [? ?]; discriminate.
Qed.

Lemma trimStart_not_space (s : string) :
  trimStart s = "" /\ all_space s = true \/
  exists c r, trimStart s = String c r /\ is_space c = false /\ all_space s = false.
Proof.
  induction s as [|c s IH]; simpl; [now left|].
  destruct (is_space c) eqn:E; simpl.
  - exact IH.
  - right. now exists c, s.
Qed.

(** [trim] leaves nothing exactly of the strings of white space. *)
Lemma trim_empty (s : string) : truthy (trim s) = negb (all_space s).
Proof.
  unfold truthy, trim.
  destruct (trimStart_not_space s) as [[-> ->] | (c & r & -> & Hc & ->)];
    [reflexivity|].
  destruct (trimEnd (String c r)) eqn:E; [|reflexivity].
  apply trimEnd_empty in E. simpl in E. rewrite Hc in E. discriminate.
Qed.

End StrFacts.

(** On the strings of code units below 256 the host's lower-casing is
    idempotent, and the lower-case form of a string is white space only
    exactly when the string is. *)
Lemma latin1_idempotent (s : string) :
  @toLowerCase latin1 (@toLowerCase latin1 s) = @toLowerCase latin1 s.
Proof. apply StrFacts.toLowerCase_latin1_idem. Qed.

Lemma latin1_keeps_blank (s : string) :
  Str.all_space (@toLowerCase latin1 s) = Str.all_space s.
Proof. apply StrFacts.all_space_toLowerCase_latin1. Qed.



(** ** The search filter *)

(** The properties of the filter hold for every lower-casing of the host,
    but for the ones that name a property of it as a hypothesis. *)
Section FilterWithHost.

Context {host : Host}.

Lemma blank_all_space (q : string) : blank q = Str.all_space q.
Proof. unfold blank. rewrite StrFacts.trim_empty. apply negb_involutive. Qed.

(** The callback as the source has it. *)
Lemma filterStep_eq (searchQuery : string) (filtered : list PDFOutlineItem)
  (item : PDFOutlineItem) :
  filterStep searchQuery filtered item =
  let query := toLowerCase searchQuery in
  let matches := Str.includes (toLowerCase (title item)) query in
  let filteredChildren := filterOutline searchQuery (children item) in
  if matches || (0 <? List.length filteredChildren)%nat
  then filtered ++ [with_children item filteredChildren]
  else filtered.
Proof. destruct item; reflexivity. Qed.

Lemma filterStep_acc (q : string) (acc : list PDFOutlineItem) (item : PDFOutlineItem) :
  filterStep q acc item = acc ++ filterStep q [] item.
Proof.
  rewrite !filterStep_eq. cbv zeta.
  destruct (_ || _); [reflexivity | now rewrite app_nil_r].
Qed.

Lemma fold_filterStep (q : string) (items acc : list PDFOutlineItem) :
  fold_left (filterStep q) items acc = acc ++ flat_map (filterStep q []) items.
Proof.
  revert acc. induction items as [|item items IH]; intros acc; simpl.
  - now rewrite app_nil_r.
  - rewrite IH, filterStep_acc. now rewrite <- app_assoc.
Qed.

Lemma filterOutline_blank (q : string) (items : list PDFOutlineItem) :
  blank q = true -> filterOutline q items = items.
Proof. intros H. unfold filterOutline. now rewrite H. Qed.

Lemma filterOutline_flat_map (q : string) (items : list PDFOutlineItem) :
  blank q = false -> filterOutline q items = flat_map (filterStep q []) items.
Proof. intros H. unfold filterOutline. rewrite H. apply fold_filterStep. Qed.

Lemma filterStep_nil (q : string) (item : PDFOutlineItem) :
  filterStep q [] item =
  if matches q item || (0 <? List.length (filterOutline q (children item)))%nat
  then [rebuilt q item] else [].
Proof. rewrite filterStep_eq. reflexivity. Qed.

Lemma nodes_eq (item : PDFOutlineItem) : nodes item = item :: descendants item.
Proof. destruct item; reflexivity. Qed.

(** Something is left of a list of siblings exactly when one of their
    nodes matches. *)
Lemma filterOutline_nonempty_list (q : string) (cs : list PDFOutlineItem) :
  blank q = false ->
  Forall (fun c => (0 <? List.length (filterOutline q (children c)))%nat
                   = existsb (matches q) (descendants c)) cs ->
  (0 <? List.length (filterOutline q cs))%nat = existsb (matches q) (flat_map nodes cs).
Proof.
  intros Hq HF. rewrite (filterOutline_flat_map _ _ Hq).
  induction HF as [|c cs Hc _ IH]; [reflexivity|].
  cbn [flat_map]. rewrite length_app, existsb_app, <- IH, filterStep_nil, Hc.
  rewrite nodes_eq. cbn [existsb].
  now destruct (matches q c || existsb (matches q) (descendants c)).
Qed.

Lemma filterOutline_nonempty (q : string) :
  blank q = false ->
  forall item,
    (0 <? List.length (filterOutline q (children item)))%nat
    = existsb (matches q) (descendants item).
Proof.
  intros Hq. apply PDFOutlineItem_tree_ind. intros item HF.
  now apply filterOutline_nonempty_list.
Qed.

Lemma filterStep_kept (q : string) (item : PDFOutlineItem) :
  blank q = false ->
  filterStep q [] item = if kept q item then [rebuilt q item] else [].
Proof.
  intros Hq. rewrite filterStep_nil, (filterOutline_nonempty q Hq). reflexivity.
Qed.

Lemma filterOutline_map_filter (q : string) (items : list PDFOutlineItem) :
  blank q = false ->
  filterOutline q items = map (rebuilt q) (filter (kept q) items).
Proof.
  intros Hq. rewrite (filterOutline_flat_map _ _ Hq).
  induction items as [|item items IH]; [reflexivity|].
  cbn [flat_map filter]. rewrite IH, (filterStep_kept _ _ Hq).
  now destruct (kept q item).
Qed.

Lemma kept_by_test (q : string) (item : PDFOutlineItem) :
  kept q item = true <->
  Str.includes (toLowerCase (title item)) (toLowerCase q) = true \/
  exists d, In d (descendants item) /\
            Str.includes (toLowerCase (title d)) (toLowerCase q) = true.
Proof.
  unfold kept, matches. rewrite orb_true_iff, existsb_exists.
  split; intros [H | (d & Hd & Hm)]; auto; right; exists d; now split.
Qed.

(** C1, as the code has it. For a query that is not blank,
    [filterOutline] returns, in the order of the input, the rebuilt copies
    of exactly the items that are kept; an item is kept exactly when its
    lower-cased title includes the lower-cased query or the lower-cased
    title of one of its descendants does; the children of a rebuilt item
    are the kept ones among its children, rebuilt in the same way, whether
    or not the item itself matches. *)
Theorem filterOutline_keeps_matching_subtrees (q : string) (items : list PDFOutlineItem) :
  Str.all_space q = false ->
  filterOutline q items = map (rebuilt q) (filter (kept q) items) /\
  (forall item,
      children (rebuilt q item) = map (rebuilt q) (filter (kept q) (children item))) /\
  (forall item,
      kept q item = true <->
      Str.includes (toLowerCase (title item)) (toLowerCase q) = true \/
      exists d, In d (descendants item) /\
                Str.includes (toLowerCase (title d)) (toLowerCase q) = true).
Proof.
  intros Hq. rewrite <- blank_all_space in Hq. split; [|split].
  - now apply filterOutline_map_filter.
  - intros item. simpl. now apply filterOutline_map_filter.
  - apply kept_by_test.
Qed.

(** C8. With a query that is empty or made of white space only,
    [filterOutline] returns the list it was given. *)
Theorem filterOutline_blank_identity (q : string) (items : list PDFOutlineItem) :
  Str.all_space q = true -> filterOutline q items = items.
Proof. intros Hq. apply filterOutline_blank. now rewrite blank_all_space. Qed.

Lemma fold_left_ext_Forall {A B : Type} (f g : A -> B -> A) (l : list B) :
  Forall (fun b => forall a, f a b = g a b) l ->
  forall a, fold_left f l a = fold_left g l a.
Proof.
  induction 1 as [|b l Hb _ IH]; intros a; simpl; [reflexivity|].
  now rewrite Hb, IH.
Qed.

(** The guard of the filter looks at the white space of the query only. *)
Lemma blank_case_variant (q q' : string) :
  Str.all_space q' = Str.all_space q -> blank q' = blank q.
Proof. intros H. now rewrite !blank_all_space. Qed.

Lemma filterStep_case_variant (q q' : string) :
  toLowerCase q' = toLowerCase q ->
  blank q' = blank q ->
  forall item acc, filterStep q' acc item = filterStep q acc item.
Proof.
  intros H Hb. apply (PDFOutlineItem_tree_ind
                        (fun item => forall acc, filterStep q' acc item = filterStep q acc item)).
  intros [t p cs d] HF acc. simpl in *.
  rewrite H, Hb.
  now rewrite (fold_left_ext_Forall _ _ _ HF).
Qed.

Lemma filterOutline_case_variant (q q' : string) (items : list PDFOutlineItem) :
  toLowerCase q' = toLowerCase q ->
  blank q' = blank q ->
  filterOutline q' items = filterOutline q items.
Proof.
  intros H Hb. unfold filterOutline. rewrite Hb.
  destruct (blank q) eqn:Hq; [reflexivity|].
  apply fold_left_ext_Forall, Forall_forall. intros item _ acc.
  apply filterStep_case_variant; [exact H | congruence].
Qed.

(** C6, as the code has it. Two queries with the same lower-case form,
    both blank or neither, give the same result on every outline; so do a
    query and its lower-case form, when lower-casing the lower-case form
    changes nothing and leaves it blank or not as the query is. The
    hypotheses on the lower-casing of the host are about the queries at
    hand only. *)
Theorem filterOutline_case_insensitive (q q' : string) (items : list PDFOutlineItem) :
  (toLowerCase q' = toLowerCase q ->
   Str.all_space q' = Str.all_space q ->
   filterOutline q' items = filterOutline q items) /\
  (toLowerCase (toLowerCase q) = toLowerCase q ->
   Str.all_space (toLowerCase q) = Str.all_space q ->
   filterOutline (toLowerCase q) items = filterOutline q items).
Proof.
  split; intros H Hs;
    (apply filterOutline_case_variant; [exact H | now apply blank_case_variant]).
Qed.

(** The test on a title looks at the title in lower case only. *)
Lemma matches_title_case (q : string) (a b : PDFOutlineItem) :
  toLowerCase (title a) = toLowerCase (title b) -> matches q a = matches q b.
Proof. unfold matches. now intros ->. Qed.

(** The listener of the search input stores the text in lower case. *)
Lemma onSearchInput_searchQuery (v : PDFOutlineView) (value : string) :
  searchQuery (onSearchInput v value) = toLowerCase value.
Proof.
  unfold onSearchInput, renderFilteredOutline.
  cbn [outlineItems searchQuery allExpanded outlineContainer content].
  now destruct (outlineContainer v).
Qed.

(** ** Parents of matching nodes *)

(** A rebuilt item differs from the item in its children only. *)
Lemma rebuilt_fields (q : string) (item : PDFOutlineItem) :
  title (rebuilt q item) = title item /\
  page (rebuilt q item) = page item /\
  dest (rebuilt q item) = dest item /\
  children (rebuilt q item) = filterOutline q (children item).
Proof. repeat split. Qed.

Lemma rebuilt_blank (q : string) (item : PDFOutlineItem) :
  blank q = true -> rebuilt q item = item.
Proof.
  intros H. unfold rebuilt. rewrite (filterOutline_blank _ _ H). now destruct item.
Qed.

Lemma chain_in_head (items chain : list PDFOutlineItem) :
  chain_in items chain ->
  exists n rest, chain = n :: rest /\ In n items /\
                 forall x, In x rest -> In x (descendants n).
Proof.
  induction 1 as [items n Hn | items n rest Hn _ IH].
  - exists n, []. repeat split; [exact Hn | intros x []].
  - destruct IH as (c & rest' & -> & Hc & Hrest).
    exists n, (c :: rest'). repeat split; [exact Hn|].
    intros x Hx. unfold descendants. apply in_flat_map. exists c.
    split; [exact Hc|]. rewrite nodes_eq.
    destruct Hx as [-> | Hx]; [now left | right; now apply Hrest].
Qed.

Lemma last_In {A : Type} (x : A) (l : list A) (d : A) : In (last (x :: l) d) (x :: l).
Proof.
  revert x. induction l as [|y l IH]; intros x; [now left|].
  right. apply IH.
Qed.

Lemma chain_in_filterOutline (q : string) (items chain : list PDFOutlineItem)
  (d : PDFOutlineItem) :
  blank q = false ->
  chain_in items chain ->
  matches q (last chain d) = true ->
  chain_in (filterOutline q items) (map (rebuilt q) chain).
Proof.
  intros Hq Hc. induction Hc as [items n Hn | items n rest Hn Hrest IH]; intros Hm.
  - simpl in Hm. constructor.
    rewrite (filterOutline_map_filter _ _ Hq). apply in_map, filter_In.
    split; [exact Hn|]. unfold kept. now rewrite Hm.
  - destruct (chain_in_head _ _ (chain_step _ _ _ Hn Hrest))
      as (n' & rest' & E & _ & Hdesc).
    injection E as <- <-.
    destruct (chain_in_head _ _ Hrest) as (c & tl & -> & _ & _).
    change (last (n :: c :: tl) d) with (last (c :: tl) d) in Hm.
    cbn [map]. apply chain_step.
    + rewrite (filterOutline_map_filter _ _ Hq). apply in_map, filter_In.
      split; [exact Hn|]. unfold kept. apply orb_true_iff. right.
      apply existsb_exists. exists (last (c :: tl) d).
      split; [|exact Hm]. apply Hdesc, last_In.
    + apply IH. exact Hm.
Qed.

(** C4. When a node whose title matches the query, by the test of the
    filter, is reached in the input by a chain of ancestors, the output has
    the same chain: the rebuilt copy of each ancestor, each the child of
    the one before, down to the rebuilt copy of the node. *)
Theorem filterOutline_preserves_ancestors (q : string)
  (items ancestors : list PDFOutlineItem) (n : PDFOutlineItem) :
  chain_in items (ancestors ++ [n]) ->
  matches q n = true ->
  chain_in (filterOutline q items) (map (rebuilt q) (ancestors ++ [n])).
Proof.
  intros Hc Hm.
  destruct (blank q) eqn:Hq.
  - rewrite (filterOutline_blank _ _ Hq).
    rewrite (map_ext _ (fun x => x) (fun x => rebuilt_blank q x Hq)), map_id.
    exact Hc.
  - apply (chain_in_filterOutline q items (ancestors ++ [n]) n); [exact Hq | exact Hc |].
    now rewrite last_last.
Qed.

(** ** The visits of the two walks *)

Lemma fold_filterStep_visits (q : string) (cs : list PDFOutlineItem) :
  Forall (fun c => forall filtered visited,
              filterStep_visits q (filtered, visited) c
              = (filterStep q filtered c, visited ++ nodes c)) cs ->
  forall filtered visited,
    fold_left (filterStep_visits q) cs (filtered, visited)
    = (fold_left (filterStep q) cs filtered, visited ++ flat_map nodes cs).
Proof.
  induction 1 as [|c cs Hc _ IH]; intros filtered visited; simpl.
  - now rewrite app_nil_r.
  - now rewrite Hc, IH, <- app_assoc.
Qed.

Lemma filterStep_visits_eq (q : string) :
  blank q = false ->
  forall item filtered visited,
    filterStep_visits q (filtered, visited) item
    = (filterStep q filtered item, visited ++ nodes item).
Proof.
  intros Hq.
  apply (PDFOutlineItem_tree_ind
           (fun item => forall filtered visited,
                filterStep_visits q (filtered, visited) item
                = (filterStep q filtered item, visited ++ nodes item))).
  intros [t p cs d] HF filtered visited. simpl in *.
  rewrite Hq, (fold_filterStep_visits _ _ HF), <- app_assoc. simpl.
  now destruct (_ || _).
Qed.

Lemma filterOutline_visits_eq (q : string) (items : list PDFOutlineItem) :
  blank q = false ->
  filterOutline_visits q items = (filterOutline q items, flat_map nodes items).
Proof.
  intros Hq. unfold filterOutline_visits, filterOutline. rewrite Hq.
  apply fold_filterStep_visits, Forall_forall. intros item _.
  now apply filterStep_visits_eq.
Qed.

Lemma resolveDestination_returns (doc : PdfJs.PDFDocumentProxy) (dest : Js.value) :
  exists p, resolveDestination doc dest = Js.Ok p.
Proof.
  unfold resolveDestination.
  destruct (resolveDestination_try doc dest) as [[p|]|e]; eauto.
Qed.

Lemma page_returns (doc : PdfJs.PDFDocumentProxy) (dest : Js.value) :
  exists p,
    (if Js.truthy dest then resolveDestination doc dest else Js.Ok 1%Z) = Js.Ok p.
Proof.
  destruct (Js.truthy dest); [apply resolveDestination_returns | eauto].
Qed.

Lemma all_visits (doc : PdfJs.PDFDocumentProxy) (cs : list PdfJs.OutlineNode) :
  Forall (fun c => exists out,
              convertOutlineItemAsync_visits c doc = Js.Ok (out, outline_nodes c) /\
              convertOutlineItemAsync c doc = Js.Ok out) cs ->
  exists converted,
    Js.all (fun c => convertOutlineItemAsync_visits c doc) cs = Js.Ok converted /\
    Js.all (fun c => convertOutlineItemAsync c doc) cs = Js.Ok (map fst converted) /\
    List.concat (map snd converted) = flat_map outline_nodes cs.
Proof.
  induction 1 as [|c cs (out & Hv & Ho) _ (converted & Hvs & Hos & Hn)].
  - exists []. auto.
  - exists ((out, outline_nodes c) :: converted). simpl.
    now rewrite Hv, Ho, Hvs, Hos, Hn.
Qed.

Lemma convertOutlineItemAsync_visits_eq (doc : PdfJs.PDFDocumentProxy) :
  forall item,
  exists out,
    convertOutlineItemAsync_visits item doc = Js.Ok (out, outline_nodes item) /\
    convertOutlineItemAsync item doc = Js.Ok out.
Proof.
  apply OutlineNode_tree_ind. intros [t d cs] HF. simpl in *.
  destruct (page_returns doc d) as [p ->]. simpl.
  destruct cs as [|c cs]; [simpl; eauto|].
  destruct (all_visits _ _ HF) as (converted & Hvs & Hos & Hn).
  change (0 <? List.length (c :: cs))%nat with true. cbv iota.
  rewrite Hvs, Hos. simpl. rewrite Hn. eauto.
Qed.

(** C7, as the code has it. Both walks return on every tree. The
    conversion runs its body once on each node of the subtree it is given.
    The filter runs the body of its loop once on each node of the forest
    when the query is not blank, and on no node when the query is blank. *)
Theorem tree_walks_visit_each_node_once (q : string) (items : list PDFOutlineItem)
  (item : PdfJs.OutlineNode) (doc : PdfJs.PDFDocumentProxy) :
  (exists out visited,
      convertOutlineItemAsync_visits item doc = Js.Ok (out, visited) /\
      convertOutlineItemAsync item doc = Js.Ok out /\
      Permutation visited (outline_nodes item)) /\
  (Str.all_space q = false ->
   filterOutline_visits q items = (filterOutline q items, flat_map nodes items)) /\
  (Str.all_space q = true ->
   filterOutline_visits q items = (filterOutline q items, [])).
Proof.
  split; [|split].
  - destruct (convertOutlineItemAsync_visits_eq doc item) as (out & Hv & Ho).
    exists out, (outline_nodes item). auto.
  - intros Hq. apply filterOutline_visits_eq. now rewrite blank_all_space.
  - intros Hq. rewrite <- blank_all_space in Hq.
    unfold filterOutline_visits, filterOutline. now rewrite Hq.
Qed.

(** The result of the recording filter is the result of the filter. *)
Lemma filterOutline_visits_result (q : string) (items : list PDFOutlineItem) :
  fst (filterOutline_visits q items) = filterOutline q items.
Proof.
  destruct (blank q) eqn:Hq.
  - unfold filterOutline_visits, filterOutline. now rewrite Hq.
  - now rewrite filterOutline_visits_eq.
Qed.

End FilterWithHost.

(** ** The outline extraction *)

(** C2. [resolveDestination] always returns a page and never throws. The
    page is the page index of the library plus one when the destination is
    an array, or a name that the library looks up to an array, and the
    library gives the index of the page the array refers to; it is 1 when
    the lookup of the name or of the page index throws, and when the
    destination, after the lookup of a name, is not an array. *)
Theorem resolveDestination_page (doc : PdfJs.PDFDocumentProxy) (dest : Js.value) :
  exists p,
    resolveDestination doc dest = Js.Ok p /\
    (forall elems i,
        looked_up doc dest = Js.Ok (Js.VArr elems) ->
        PdfJs.getPageIndex doc (Js.first elems) = Js.Ok i ->
        p = (i + 1)%Z) /\
    (forall e, looked_up doc dest = Js.Throw e -> p = 1%Z) /\
    (forall elems e,
        looked_up doc dest = Js.Ok (Js.VArr elems) ->
        PdfJs.getPageIndex doc (Js.first elems) = Js.Throw e ->
        p = 1%Z) /\
    (forall v, looked_up doc dest = Js.Ok v -> Js.is_array v = false -> p = 1%Z).
Proof.
  unfold resolveDestination, resolveDestination_try.
  fold (looked_up doc dest).
  destruct (looked_up doc dest) as [v|e]; simpl.
  - destruct v as [| |b|n|s|elems|id|id]; simpl;
      try (exists 1%Z; repeat split; intros; congruence).
    destruct (PdfJs.getPageIndex doc (Js.first elems)) as [i|e] eqn:Hi; simpl.
    + exists (i + 1)%Z. repeat split.
      * intros elems' i' E Hi'. injection E as <-. congruence.
      * discriminate.
      * intros elems' e E Hi'. injection E as <-. congruence.
      * intros v E Hv. injection E as <-. discriminate.
    + exists 1%Z. repeat split; intros; congruence.
  - exists 1%Z. repeat split; intros; congruence.
Qed.

Lemma all_Forall2 {A B : Type} (f : A -> Js.result B) (xs : list A) (ys : list B) :
  Js.all f xs = Js.Ok ys <-> Forall2 (fun x y => f x = Js.Ok y) xs ys.
Proof.
  revert ys. induction xs as [|x xs IH]; intros ys; simpl.
  - split.
    + intros H. injection H as <-. constructor.
    + intros H. inversion H. reflexivity.
  - split.
    + destruct (f x) as [y|e] eqn:Hx; [|discriminate].
      destruct (Js.all f xs) as [ys'|e]; [|discriminate].
      intros H. injection H as <-. constructor; [exact Hx | now apply IH].
    + intros H. inversion H as [|x' y xs' ys' Hx Hxs]; subst.
      rewrite Hx. apply IH in Hxs. now rewrite Hxs.
Qed.

Lemma convertOutlineItemAsync_eq (item : PdfJs.OutlineNode) (doc : PdfJs.PDFDocumentProxy) :
  convertOutlineItemAsync item doc =
  (page <- (if Js.truthy (PdfJs.dest item)
            then resolveDestination doc (PdfJs.dest item)
            else Js.Ok 1%Z) ;;
   let outlineItem :=
     {| title := title_or_untitled (PdfJs.title item);
        page := page;
        children := [];
        dest := PdfJs.dest item |} in
   if (0 <? List.length (PdfJs.items item))%nat
   then
     converted <- Js.all (fun child => convertOutlineItemAsync child doc) (PdfJs.items item) ;;
     Js.Ok (with_children outlineItem converted)
   else Js.Ok outlineItem).
Proof. destruct item; reflexivity. Qed.

Lemma convertOutlineItemAsync_returns (doc : PdfJs.PDFDocumentProxy) :
  forall item, exists out, convertOutlineItemAsync item doc = Js.Ok out.
Proof.
  intros item. destruct (convertOutlineItemAsync_visits_eq doc item) as (out & _ & H).
  eauto.
Qed.

Lemma all_convert_returns (doc : PdfJs.PDFDocumentProxy) (cs : list PdfJs.OutlineNode) :
  exists outs, Js.all (fun c => convertOutlineItemAsync c doc) cs = Js.Ok outs.
Proof.
  induction cs as [|c cs [outs IH]]; simpl; [eauto|].
  destruct (convertOutlineItemAsync_returns doc c) as [out ->].
  rewrite IH. eauto.
Qed.

(** A destination that is falsy and not the empty string has no
    resolvable shape. *)
Lemma falsy_resolves_to_1 (doc : PdfJs.PDFDocumentProxy) (dest : Js.value) :
  Js.truthy dest = false -> dest <> Js.VStr "" ->
  resolveDestination doc dest = Js.Ok 1%Z.
Proof.
  destruct dest as [| |b|n|s|elems|id|id]; simpl; try discriminate; try reflexivity.
  intros Hs Hne. destruct s; [now elim Hne | discriminate].
Qed.

(** C5. The conversion of a node returns an item with the title of the
    node, or 'Untitled' when that title is the empty string; with the page
    [resolveDestination] gives for the destination of the node when the
    node has one (its [dest] is truthy), and page 1 when it has none; and
    with the conversions of the child nodes, in their order, as children.
    The destination itself is carried over. The empty string is the one
    destination on which the page, 1, is not asked of [resolveDestination]:
    on every other one the two agree. *)
Theorem convertOutlineItemAsync_item (item : PdfJs.OutlineNode) (doc : PdfJs.PDFDocumentProxy) :
  exists out,
    convertOutlineItemAsync item doc = Js.Ok out /\
    title out = (if (PdfJs.title item =? "")%string then "Untitled" else PdfJs.title item) /\
    (Js.truthy (PdfJs.dest item) = true ->
     resolveDestination doc (PdfJs.dest item) = Js.Ok (page out)) /\
    (Js.truthy (PdfJs.dest item) = false -> page out = 1%Z) /\
    (PdfJs.dest item <> Js.VStr "" ->
     resolveDestination doc (PdfJs.dest item) = Js.Ok (page out)) /\
    Forall2 (fun child c => convertOutlineItemAsync child doc = Js.Ok c)
      (PdfJs.items item) (children out) /\
    dest out = PdfJs.dest item.
Proof.
  rewrite convertOutlineItemAsync_eq.
  destruct (page_returns doc (PdfJs.dest item)) as [p Hp]. rewrite Hp. simpl.
  assert (Ht : title_or_untitled (PdfJs.title item)
               = if (PdfJs.title item =? "")%string then "Untitled" else PdfJs.title item).
  { unfold title_or_untitled, Str.truthy. now destruct (PdfJs.title item =? "")%string. }
  assert (Hpage : (Js.truthy (PdfJs.dest item) = true ->
                   resolveDestination doc (PdfJs.dest item) = Js.Ok p) /\
                  (Js.truthy (PdfJs.dest item) = false -> p = 1%Z)).
  { destruct (Js.truthy (PdfJs.dest item)); split; intros; congruence. }
  destruct Hpage as [Hp1 Hp2].
  assert (Hp3 : PdfJs.dest item <> Js.VStr "" ->
                resolveDestination doc (PdfJs.dest item) = Js.Ok p).
  { intros Hne. destruct (Js.truthy (PdfJs.dest item)) eqn:Ht'; [now apply Hp1|].
    rewrite (Hp2 eq_refl). apply falsy_resolves_to_1; assumption. }
  destruct (PdfJs.items item) as [|c cs] eqn:Hitems.
  - simpl. eexists. split; [reflexivity|]. simpl. repeat split; auto.
  - change (0 <? List.length (c :: cs))%nat with true. cbv iota.
    destruct (all_convert_returns doc (c :: cs)) as [outs Houts].
    rewrite Houts. simpl. eexists. split; [reflexivity|]. simpl.
    repeat split; auto. now apply all_Forall2.
Qed.

Lemma resolveDestination_at_least_1 (doc : PdfJs.PDFDocumentProxy) (dest : Js.value) (p : Z) :
  indexes_pages doc -> resolveDestination doc dest = Js.Ok p -> (1 <= p)%Z.
Proof.
  intros Hdoc. unfold resolveDestination, resolveDestination_try.
  fold (looked_up doc dest).
  destruct (looked_up doc dest) as [v|e]; simpl.
  - destruct v as [| |b|n|s|elems|id|id]; simpl; try (intros [= <-]; lia).
    destruct (PdfJs.getPageIndex doc (Js.first elems)) as [i|e] eqn:Hi; simpl.
    + intros [= <-]. apply Hdoc in Hi. lia.
    + intros [= <-]. lia.
  - intros [= <-]. lia.
Qed.

Lemma title_or_untitled_not_empty (t : string) : title_or_untitled t <> "".
Proof.
  unfold title_or_untitled, Str.truthy.
  destruct (t =? "")%string eqn:E; simpl.
  - discriminate.
  - intros ->. discriminate.
Qed.

Lemma converted_children_well_formed (doc : PdfJs.PDFDocumentProxy)
  (cs : list PdfJs.OutlineNode) (outs : list PDFOutlineItem) :
  Forall (fun c => forall out, convertOutlineItemAsync c doc = Js.Ok out ->
                               Forall well_formed_item (nodes out)) cs ->
  Forall2 (fun c out => convertOutlineItemAsync c doc = Js.Ok out) cs outs ->
  Forall well_formed_item (flat_map nodes outs).
Proof.
  intros HF H2. induction H2 as [|c out cs outs Hc _ IH]; [constructor|].
  inversion HF as [|? ? Pc Pcs]; subst. cbn [flat_map].
  apply Forall_app. split; [now apply Pc | now apply IH].
Qed.

Lemma convertOutlineItemAsync_well_formed (doc : PdfJs.PDFDocumentProxy) :
  indexes_pages doc ->
  forall item out,
    convertOutlineItemAsync item doc = Js.Ok out ->
    Forall well_formed_item (nodes out).
Proof.
  intros Hdoc.
  apply (OutlineNode_tree_ind
           (fun item => forall out, convertOutlineItemAsync item doc = Js.Ok out ->
                                    Forall well_formed_item (nodes out))).
  intros item HF out. rewrite convertOutlineItemAsync_eq.
  destruct (page_returns doc (PdfJs.dest item)) as [p Hp]. rewrite Hp. simpl.
  assert (H1 : (1 <= p)%Z).
  { destruct (Js.truthy (PdfJs.dest item)).
    - now apply (resolveDestination_at_least_1 doc (PdfJs.dest item)).
    - injection Hp as <-. lia. }
  destruct (0 <? List.length (PdfJs.items item))%nat.
  - destruct (Js.all _ (PdfJs.items item)) as [converted|e] eqn:Hall; [|discriminate].
    simpl. intros [= <-]. rewrite nodes_eq. constructor.
    + split; [exact H1 | apply title_or_untitled_not_empty].
    + apply all_Forall2 in Hall.
      apply (converted_children_well_formed doc (PdfJs.items item)); assumption.
  - intros [= <-]. rewrite nodes_eq. constructor; [|constructor].
    split; [exact H1 | apply title_or_untitled_not_empty].
Qed.

(** C9. Under the contract of the PDF library that page indexes start at
    0, every item of an outline that [parsePDFOutline] returns, at every
    depth, has a page of at least 1 and a title that is not the empty
    string; and [parsePDFOutline] returns the empty list when the outline
    of the opened document is null or empty. *)
Theorem parsePDFOutline_items (f : TFile) (app : App) (pdfjsLib : option PdfJs.Lib) :
  (forall outline,
      (forall doc, opened_document f app pdfjsLib = Js.Ok doc -> indexes_pages doc) ->
      fst (parsePDFOutline f app pdfjsLib) = Js.Ok outline ->
      Forall well_formed_item (flat_map nodes outline)) /\
  (forall doc,
      opened_document f app pdfjsLib = Js.Ok doc ->
      PdfJs.getOutline doc = Js.Ok None \/ PdfJs.getOutline doc = Js.Ok (Some []) ->
      fst (parsePDFOutline f app pdfjsLib) = Js.Ok []).
Proof.
  unfold parsePDFOutline, opened_document.
  destruct (match pdfjsLib with Some lib => Js.Ok lib | None => loadPdfJs app end)
    as [lib|e]; simpl.
  2: { split; [intros; discriminate | intros; discriminate]. }
  destruct (readBinary app f) as [buf|e]; simpl.
  2: { split; [intros; discriminate | intros; discriminate]. }
  destruct (PdfJs.getDocument lib buf) as [doc|e]; simpl.
  2: { split; [intros; discriminate | intros; discriminate]. }
  split.
  - intros outline Hdoc. specialize (Hdoc doc eq_refl).
    destruct (PdfJs.getOutline doc) as [[nodes0|]|e]; simpl; try discriminate.
    + destruct (List.length nodes0 =? 0)%nat.
      * intros [= <-]. constructor.
      * intros Hall. apply all_Forall2 in Hall.
        apply (converted_children_well_formed doc nodes0); [|exact Hall].
        apply Forall_forall. intros c _ out.
        now apply convertOutlineItemAsync_well_formed.
    + intros [= <-]. constructor.
  - intros doc' [= <-] [-> | ->]; reflexivity.
Qed.

(** ** Page navigation *)

Lemma strategies_complete (s : Strategy) : In s strategies.
Proof. destruct s; simpl; tauto. Qed.

Lemma invoke_no_warning (leaf : Nav.Leaf) (v : Nav.PdfView) (page : Z) (s : Strategy) :
  existsb is_warning (invoke leaf v page s) = false.
Proof. destruct s; simpl; try reflexivity. now destruct (page_input leaf v). Qed.

(** The cascade of the source is a search for the first applicable
    strategy in [strategies]. *)
Lemma navigateToPageInLeaf_first_applicable (pdfLeaves : list Nav.Leaf) (page : Z)
  (f : TFile) (leaf : option Nav.Leaf) (l : Nav.Leaf) (v : Nav.PdfView) :
  target_leaf pdfLeaves f leaf = Some l ->
  Nav.view l = Some v ->
  Nav.navigateToPageInLeaf pdfLeaves page f leaf =
  match find (applicable l v) strategies with
  | Some s => invoke l v page s
  | None => [Nav.Warn page (path f)]
  end.
Proof.
  unfold Nav.navigateToPageInLeaf, target_leaf. intros -> ->.
  unfold strategies. cbn [find]. cbn [applicable].
  destruct (Js.is_function (Nav.goToPage v)); [reflexivity|].
  destruct (Js.is_function (Nav.jumpToPage v)); [reflexivity|].
  destruct (Js.is_function (Nav.navigateToPage v)); [reflexivity|].
  unfold invoke, page_input, container_of.
  destruct (Nav.pdfViewer v) as [viewer|];
    [destruct (Js.is_defined (Nav.currentPageNumber viewer)); [reflexivity|] |];
    (destruct (Nav.containerEl v) as [el|];
     [|destruct (Nav.leafContainerEl l) as [el|]];
     try reflexivity; now destruct (Nav.numberInput el)).
Qed.

(** C3. On a leaf that has a view, [navigateToPageInLeaf] goes through
    the five strategies in the order goToPage, jumpToPage, navigateToPage,
    currentPageNumber of the inner viewer, page input of the DOM; it
    invokes the first one that is applicable and no other, and it logs the
    warning exactly when none of the five is applicable, doing nothing
    else then. *)
Theorem navigateToPageInLeaf_dispatch (pdfLeaves : list Nav.Leaf) (page : Z)
  (f : TFile) (leaf : option Nav.Leaf) (l : Nav.Leaf) (v : Nav.PdfView) :
  target_leaf pdfLeaves f leaf = Some l ->
  Nav.view l = Some v ->
  strategies = [ByGoToPage; ByJumpToPage; ByNavigateToPage; ByCurrentPageNumber; ByPageInput] /\
  Nav.navigateToPageInLeaf pdfLeaves page f leaf =
    match find (applicable l v) strategies with
    | Some s => invoke l v page s
    | None => [Nav.Warn page (path f)]
    end /\
  (existsb is_warning (Nav.navigateToPageInLeaf pdfLeaves page f leaf) = true <->
   forall s, applicable l v s = false).
Proof.
  intros Hl Hv. split; [reflexivity|].
  rewrite (navigateToPageInLeaf_first_applicable _ page _ _ _ _ Hl Hv).
  split; [reflexivity|].
  destruct (find (applicable l v) strategies) as [s|] eqn:Hfind.
  - rewrite invoke_no_warning. split; [discriminate|].
    intros Hnone. apply find_some in Hfind as [_ Hs]. rewrite Hnone in Hs. discriminate.
  - split; [|reflexivity]. intros _ s.
    apply (find_none _ _ Hfind), strategies_complete.
Qed.

(** Without a leaf, or on a leaf without a view, the function returns at
    once: no strategy is tried and nothing is logged. *)
Lemma navigateToPageInLeaf_no_view (pdfLeaves : list Nav.Leaf) (page : Z)
  (f : TFile) (leaf : option Nav.Leaf) :
  (target_leaf pdfLeaves f leaf = None \/
   exists l, target_leaf pdfLeaves f leaf = Some l /\ Nav.view l = None) ->
  Nav.navigateToPageInLeaf pdfLeaves page f leaf = [].
Proof.
  unfold Nav.navigateToPageInLeaf, target_leaf.
  intros [-> | (l & -> & ->)]; reflexivity.
Qed.

(** ** The file-open listener *)

Section ListenerWithHost.

Context {host : Host}.

Lemma display_if_view_empty (st : Plugin) : shows_empty_outline (display_if_view st []).
Proof.
  unfold shows_empty_outline, display_if_view. intros v.
  destruct (view st) as [v0|] eqn:E; simpl.
  - intros [= <-]. split; reflexivity.
  - rewrite E. discriminate.
Qed.

Lemma display_if_view_view (st : Plugin) (outline : list PDFOutlineItem) :
  view (display_if_view st outline)
  = option_map (fun v => displayOutline v outline) (view st).
Proof. unfold display_if_view. now destruct (view st) eqn:E; simpl; [|rewrite E]. Qed.

(** C10. When the file-open event carries no file, or a file whose
    extension is not 'pdf', the listener calls [displayOutline] with the
    empty list on the view of the plugin, if it has one. When the file is
    a PDF, the view is there or its activation completes, and the parsing
    throws, the listener does the same on the view the plugin has then and
    swallows the error. In both cases a view of the plugin afterwards holds
    and shows the empty outline. *)
Theorem onFileOpen_shows_empty_outline (ws : Workspace) (app : App)
  (f : option TFile) (st : Plugin) :
  ((f = None \/ exists file, f = Some file /\ extension file <> "pdf") ->
   onFileOpen ws app f st = (display_if_view st [], Js.Ok tt) /\
   view (fst (onFileOpen ws app f st))
   = option_map (fun v => displayOutline v []) (view st) /\
   shows_empty_outline (fst (onFileOpen ws app f st))) /\
  (forall file st1 e,
      f = Some file ->
      extension file = "pdf" ->
      ensure_view ws st = (st1, Js.Ok tt) ->
      fst (parsePDFOutline file app (pdfjsLib st1)) = Js.Throw e ->
      snd (onFileOpen ws app f st) = Js.Ok tt /\
      view (fst (onFileOpen ws app f st))
      = option_map (fun v => displayOutline v []) (view st1) /\
      shows_empty_outline (fst (onFileOpen ws app f st))).
Proof.
  split.
  - intros Hf.
    assert (E : onFileOpen ws app f st = (display_if_view st [], Js.Ok tt)).
    { destruct Hf as [-> | (file & -> & Hext)]; [reflexivity|].
      unfold onFileOpen. apply String.eqb_neq in Hext. now rewrite Hext. }
    rewrite E. simpl. split; [reflexivity|]. split.
    + apply display_if_view_view.
    + apply display_if_view_empty.
  - intros file st1 e -> Hext Hview Hparse.
    unfold onFileOpen. apply String.eqb_eq in Hext. rewrite Hext.
    unfold updateOutlineForFile. fold (ensure_view ws st). rewrite Hview.
    destruct (parsePDFOutline file app (pdfjsLib st1)) as [parsed lib].
    simpl in Hparse. subst parsed. simpl. split; [reflexivity|]. split.
    + apply (display_if_view_view {| view := view st1; pdfjsLib := lib |}).
    + apply display_if_view_empty.
Qed.

End ListenerWithHost.

(** * Further properties *)

(** ** More on the search filter *)

Section MoreOnTheFilter.

Context {host : Host}.

Lemma flat_map_compose {A B C : Type} (f : B -> list C) (g : A -> list B) (l : list A) :
  flat_map f (flat_map g l) = flat_map (fun x => flat_map f (g x)) l.
Proof.
  induction l as [|x l IH]; simpl; [reflexivity|].
  now rewrite flat_map_app, IH.
Qed.

Lemma flat_map_ext_Forall {A B : Type} (f g : A -> list B) (l : list A) :
  Forall (fun x => f x = g x) l -> flat_map f l = flat_map g l.
Proof.
  induction 1 as [|x l Hx _ IH]; simpl; [reflexivity|].
  now rewrite Hx, IH.
Qed.

Lemma Forall_flat_map {A B : Type} (P : B -> Prop) (f : A -> list B) (l : list A) :
  Forall (fun x => Forall P (f x)) l -> Forall P (flat_map f l).
Proof.
  induction 1 as [|x l Hx _ IH]; simpl; [constructor|].
  apply Forall_app. now split.
Qed.

Lemma includes_trans (s m sub : string) :
  Str.includes s m = true -> Str.includes m sub = true -> Str.includes s sub = true.
Proof.
  rewrite !StrFacts.includes_spec.
  intros (a & b & ->) (c & d & ->).
  exists (a ++ c)%string, (d ++ b)%string.
  now rewrite !StrFacts.app_assoc.
Qed.

Lemma includes_refl (s : string) : Str.includes s s = true.
Proof.
  apply StrFacts.includes_spec. exists "", "". simpl.
  now rewrite StrFacts.app_empty_r.
Qed.

Section Narrowing.

Variables q q' : string.
Hypothesis narrower :
  Str.includes (toLowerCase q') (toLowerCase q) = true.

Lemma matches_narrow (item : PDFOutlineItem) :
  matches q' item = true -> matches q item = true.
Proof. unfold matches. intros H. exact (includes_trans _ _ _ H narrower). Qed.

Lemma kept_narrow (item : PDFOutlineItem) :
  kept q' item = true -> kept q item = true.
Proof.
  unfold kept. rewrite !orb_true_iff, !existsb_exists.
  intros [H | (d & Hd & H)].
  - left. now apply matches_narrow.
  - right. exists d. split; [exact Hd | now apply matches_narrow].
Qed.

Hypothesis not_blank : blank q = false.
Hypothesis not_blank' : blank q' = false.

Lemma narrow_list (cs : list PDFOutlineItem) :
  Forall (fun c => flat_map (filterStep q' []) (filterStep q [] c) = filterStep q' [] c) cs ->
  filterOutline q' (filterOutline q cs) = filterOutline q' cs.
Proof.
  intros HF.
  rewrite (filterOutline_flat_map q _ not_blank), !(filterOutline_flat_map q' _ not_blank').
  rewrite flat_map_compose. now apply flat_map_ext_Forall.
Qed.

Lemma narrow_item :
  forall item, flat_map (filterStep q' []) (filterStep q [] item) = filterStep q' [] item.
Proof.
  apply PDFOutlineItem_tree_ind. intros item HF.
  pose proof (narrow_list _ HF) as Hc.
  rewrite (filterStep_kept q item not_blank).
  destruct (kept q item) eqn:K.
  - cbn [flat_map]. rewrite app_nil_r, !filterStep_nil.
    change (children (rebuilt q item)) with (filterOutline q (children item)).
    rewrite Hc.
    change (matches q' (rebuilt q item)) with (matches q' item).
    replace (rebuilt q' (rebuilt q item)) with (rebuilt q' item); [reflexivity|].
    unfold rebuilt, with_children. cbn [title page dest children]. now rewrite Hc.
  - cbn [flat_map]. rewrite (filterStep_kept q' item not_blank').
    destruct (kept q' item) eqn:K'; [|reflexivity].
    apply kept_narrow in K'. congruence.
Qed.

End Narrowing.

(** Filtering what a filter left, with a query in which the first query
    occurs. *)
Lemma filterOutline_narrow (q q' : string) (items : list PDFOutlineItem) :
  Str.includes (toLowerCase q') (toLowerCase q) = true ->
  (blank q' = true -> blank q = true) ->
  filterOutline q' (filterOutline q items) = filterOutline q' items.
Proof.
  intros H Hb. destruct (blank q) eqn:Hq.
  - now rewrite (filterOutline_blank q items Hq).
  - destruct (blank q') eqn:Hq'.
    + specialize (Hb eq_refl). congruence.
    + apply (narrow_list q q' Hq Hq'), Forall_forall. intros c _.
      now apply narrow_item.
Qed.

(** The nodes of a filtered outline are rebuilt copies of nodes of the
    outline. *)
Lemma nodes_filterStep (q : string) :
  blank q = false ->
  forall item n,
    In n (flat_map nodes (filterStep q [] item)) ->
    exists m, In m (nodes item) /\ n = rebuilt q m.
Proof.
  intros Hq.
  apply (PDFOutlineItem_tree_ind
           (fun item => forall n, In n (flat_map nodes (filterStep q [] item)) ->
                                  exists m, In m (nodes item) /\ n = rebuilt q m)).
  intros item HF n. rewrite (filterStep_kept q item Hq).
  destruct (kept q item); [|intros []].
  cbn [flat_map]. rewrite app_nil_r, (nodes_eq (rebuilt q item)), (nodes_eq item).
  intros [<- | Hn].
  - exists item. split; [now left | reflexivity].
  - unfold descendants in Hn.
    change (children (rebuilt q item)) with (filterOutline q (children item)) in Hn.
    rewrite (filterOutline_flat_map _ _ Hq), flat_map_compose in Hn.
    apply in_flat_map in Hn as (c & Hc & Hn).
    rewrite Forall_forall in HF. destruct (HF c Hc n Hn) as (m & Hm & ->).
    exists m. split; [|reflexivity].
    right. unfold descendants. apply in_flat_map. now exists c.
Qed.

Lemma nodes_filterOutline (q : string) (items : list PDFOutlineItem) (n : PDFOutlineItem) :
  In n (flat_map nodes (filterOutline q items)) ->
  exists m, In m (flat_map nodes items) /\ n = rebuilt q m.
Proof.
  destruct (blank q) eqn:Hq.
  - rewrite (filterOutline_blank _ _ Hq). intros Hn.
    exists n. split; [exact Hn | now rewrite rebuilt_blank].
  - rewrite (filterOutline_flat_map _ _ Hq), flat_map_compose.
    intros Hn. apply in_flat_map in Hn as (c & Hc & Hn).
    destruct (nodes_filterStep q Hq c n Hn) as (m & Hm & ->).
    exists m. split; [|reflexivity]. apply in_flat_map. now exists c.
Qed.

(** X1. Filtering is idempotent: filtering the result again with the same
    query changes nothing. In particular the second filtering that
    [toggleItem] applies to the children of an item of the filtered
    outline, when the item is expanded, returns these children. *)
Theorem filterOutline_idempotent (q : string) (items : list PDFOutlineItem) :
  filterOutline q (filterOutline q items) = filterOutline q items /\
  Forall (fun n => filterOutline q (children n) = children n)
    (flat_map nodes (filterOutline q items)).
Proof.
  split.
  - apply filterOutline_narrow; [apply includes_refl | tauto].
  - apply Forall_forall. intros n Hn.
    destruct (nodes_filterOutline q items n Hn) as (m & _ & ->).
    apply (filterOutline_narrow q q (children m)); [apply includes_refl | tauto].
Qed.

(** X2. Narrowing a search: when the lower-case form of the query [q]
    occurs in the lower-case form of the query [q'], and [q'] is not
    blank, filtering with [q'] what the filter left for [q] gives what
    filtering the whole outline with [q'] gives. *)
Theorem filterOutline_narrowing (q q' : string) (items : list PDFOutlineItem) :
  Str.includes (toLowerCase q') (toLowerCase q) = true ->
  Str.all_space q' = false ->
  filterOutline q' (filterOutline q items) = filterOutline q' items.
Proof.
  intros H Hq'. apply filterOutline_narrow; [exact H|].
  rewrite blank_all_space. congruence.
Qed.

(** The filter leaves an item or not by what is left of its children. *)
Lemma filterOutline_nonempty_iff (q : string) (items : list PDFOutlineItem) :
  blank q = false ->
  (0 <? List.length (filterOutline q items))%nat
  = existsb (matches q) (flat_map nodes items).
Proof.
  intros Hq. apply (filterOutline_nonempty_list q items Hq), Forall_forall.
  intros c _. now apply filterOutline_nonempty.
Qed.

Lemma childless_match_step (q : string) :
  blank q = false ->
  forall item,
    Forall (fun n => children n = [] -> matches q n = true)
      (flat_map nodes (filterStep q [] item)).
Proof.
  intros Hq. apply PDFOutlineItem_tree_ind. intros item HF.
  rewrite filterStep_nil.
  destruct (matches q item || (0 <? List.length (filterOutline q (children item)))%nat)
    eqn:E; [|constructor].
  cbn [flat_map]. rewrite app_nil_r, (nodes_eq (rebuilt q item)). constructor.
  - intros Hnil.
    change (children (rebuilt q item)) with (filterOutline q (children item)) in Hnil.
    rewrite Hnil in E. simpl in E. now rewrite orb_false_r in E.
  - unfold descendants.
    change (children (rebuilt q item)) with (filterOutline q (children item)).
    rewrite (filterOutline_flat_map _ _ Hq), flat_map_compose.
    now apply Forall_flat_map.
Qed.

(** X3. In the result of a search every item that has no children left
    passes the test of the filter itself, its lower-cased title includes
    the lower-cased query: the filter keeps an item that does not match
    only above a match. *)
Theorem filterOutline_childless_items_match (q : string) (items : list PDFOutlineItem) :
  Str.all_space q = false ->
  Forall (fun n => children n = [] ->
                   Str.includes (toLowerCase (title n)) (toLowerCase q) = true)
    (flat_map nodes (filterOutline q items)).
Proof.
  intros Hq. rewrite <- blank_all_space in Hq.
  rewrite (filterOutline_flat_map _ _ Hq), flat_map_compose.
  apply Forall_flat_map, Forall_forall. intros item _.
  exact (childless_match_step q Hq item).
Qed.

(** X4. When the view has its outline container and the query is not
    blank, [renderFilteredOutline] shows 'No matching items found.' exactly
    when no title of the outline, at any depth, passes the test of the
    filter. *)
Theorem renderFilteredOutline_no_matching (v : PDFOutlineView) :
  outlineContainer v = Attached ->
  Str.all_space (searchQuery v) = false ->
  (content (renderFilteredOutline v) = NoMatching <->
   forall n, In n (flat_map nodes (outlineItems v)) ->
             Str.includes (toLowerCase (title n)) (toLowerCase (searchQuery v)) = false).
Proof.
  intros Hc Hq. rewrite <- blank_all_space in Hq.
  pose proof (filterOutline_nonempty_iff (searchQuery v) (outlineItems v) Hq) as H.
  unfold renderFilteredOutline. rewrite Hc. cbn [content].
  destruct (filterOutline (searchQuery v) (outlineItems v)) as [|r rs].
  - change (false = existsb (matches (searchQuery v)) (flat_map nodes (outlineItems v)))
      in H.
    split; [|reflexivity]. intros _ n Hn.
    destruct (Str.includes (toLowerCase (title n)) (toLowerCase (searchQuery v))) eqn:E;
      [|reflexivity].
    assert (Hex : existsb (matches (searchQuery v)) (flat_map nodes (outlineItems v)) = true)
      by (apply existsb_exists; now exists n).
    congruence.
  - change (true = existsb (matches (searchQuery v)) (flat_map nodes (outlineItems v)))
      in H.
    split; [discriminate|]. intros Hnone. symmetry in H.
    apply existsb_exists in H as (n & Hn & Hm).
    unfold matches in Hm. rewrite (Hnone n Hn) in Hm. discriminate.
Qed.

(** ** The filter adds nothing *)

Lemma subseq_refl {A : Type} (l : list A) : subseq l l.
Proof. induction l; constructor; assumption. Qed.

Lemma subseq_nil_l {A : Type} (l : list A) : subseq [] l.
Proof. induction l; constructor; assumption. Qed.

Lemma subseq_app {A : Type} (l1 l2 l1' l2' : list A) :
  subseq l1 l2 -> subseq l1' l2' -> subseq (l1 ++ l1') (l2 ++ l2').
Proof.
  intros H H'. induction H; simpl; try constructor; assumption.
Qed.

Lemma subseq_length {A : Type} (l1 l2 : list A) :
  subseq l1 l2 -> (List.length l1 <= List.length l2)%nat.
Proof. induction 1; simpl; lia. Qed.

Lemma subseq_flat_map {A B : Type} (f g : A -> list B) (l : list A) :
  Forall (fun x => subseq (f x) (g x)) l -> subseq (flat_map f l) (flat_map g l).
Proof.
  induction 1 as [|x l Hx _ IH]; simpl; [constructor|].
  now apply subseq_app.
Qed.

Lemma labels_filterStep (q : string) :
  blank q = false ->
  forall item,
    subseq (map label (flat_map nodes (filterStep q [] item))) (map label (nodes item)).
Proof.
  intros Hq. apply PDFOutlineItem_tree_ind. intros item HF.
  rewrite (filterStep_kept q item Hq).
  destruct (kept q item); [|apply subseq_nil_l].
  cbn [flat_map]. rewrite app_nil_r, (nodes_eq (rebuilt q item)), (nodes_eq item).
  cbn [map]. change (label (rebuilt q item)) with (label item). apply subseq_keep.
  unfold descendants.
  change (children (rebuilt q item)) with (filterOutline q (children item)).
  rewrite (filterOutline_flat_map _ _ Hq), flat_map_compose.
  rewrite !flat_map_concat_map, !concat_map, !map_map, <- !flat_map_concat_map.
  now apply subseq_flat_map.
Qed.

(** X5. The filter adds nothing and moves nothing: the titles, pages and
    destinations of the nodes of its result, read in document order, are
    those of the nodes of its input with some left out; so the result
    never has more nodes than the input. *)
Theorem filterOutline_subsequence (q : string) (items : list PDFOutlineItem) :
  subseq (map label (flat_map nodes (filterOutline q items)))
    (map label (flat_map nodes items)) /\
  (List.length (flat_map nodes (filterOutline q items))
   <= List.length (flat_map nodes items))%nat.
Proof.
  assert (H : subseq (map label (flat_map nodes (filterOutline q items)))
                (map label (flat_map nodes items))).
  { destruct (blank q) eqn:Hq.
    - rewrite (filterOutline_blank _ _ Hq). apply subseq_refl.
    - rewrite (filterOutline_flat_map _ _ Hq), flat_map_compose.
      rewrite !flat_map_concat_map, !concat_map, !map_map, <- !flat_map_concat_map.
      apply subseq_flat_map, Forall_forall. intros item _.
      now apply labels_filterStep. }
  split; [exact H|].
  apply subseq_length in H. now rewrite !length_map in H.
Qed.

(** ** More on the view *)

(** X6. A search outlives the document: when a text was typed in the
    search box of a view that shows an outline, and another outline, not
    empty, is displayed, the view keeps the query, the lower-case form of
    the text, and its expansion flag; it has a new container and shows the
    new outline filtered with the query, collapsed when the flag is off,
    or the no-match message when nothing is left. *)
Theorem displayOutline_keeps_search (v : PDFOutlineView) (value : string)
  (outline : list PDFOutlineItem) :
  outlineContainer v = Attached ->
  outline <> [] ->
  let shown := displayOutline (onSearchInput v value) outline in
  outlineItems shown = outline /\
  searchQuery shown = toLowerCase value /\
  allExpanded shown = allExpanded v /\
  outlineContainer shown = Attached /\
  content shown =
    (if (List.length (filterOutline (toLowerCase value) outline) =? 0)%nat
     then NoMatching
     else Tree (filterOutline (toLowerCase value) outline) (negb (allExpanded v))).
Proof.
  intros Hc Hne. destruct outline as [|item rest]; [now elim Hne|].
  unfold displayOutline, onSearchInput, renderFilteredOutline.
  cbn [outlineItems searchQuery allExpanded outlineContainer content List.length Nat.eqb].
  rewrite Hc.
  cbn [outlineItems searchQuery allExpanded outlineContainer content].
  repeat split.
Qed.

(** X7. When the view has its outline container and a stored outline
    that is not empty, and the lower-case form of the text of the search
    box is empty or white space only, as it is when the box is emptied,
    the view shows the whole outline again, collapsed when the expansion
    flag is off, whatever was searched before. *)
Theorem onSearchInput_blank_shows_all (v : PDFOutlineView) (value : string) :
  Str.all_space (toLowerCase value) = true ->
  outlineContainer v = Attached ->
  outlineItems v <> [] ->
  content (onSearchInput v value) = Tree (outlineItems v) (negb (allExpanded v)).
Proof.
  intros Hblank Hc Hne. unfold onSearchInput, renderFilteredOutline.
  cbn [outlineItems searchQuery allExpanded outlineContainer content]. rewrite Hc.
  cbn [content].
  rewrite filterOutline_blank by now rewrite blank_all_space.
  destruct (outlineItems v); [now elim Hne | reflexivity].
Qed.

End MoreOnTheFilter.

(** ** More on the outline extraction *)

Lemma page_for_eq (doc : PdfJs.PDFDocumentProxy) (dest : Js.value) :
  (if Js.truthy dest then resolveDestination doc dest else Js.Ok 1%Z)
  = Js.Ok (page_for doc dest).
Proof.
  unfold page_for. destruct (Js.truthy dest); [|reflexivity].
  now destruct (resolveDestination_returns doc dest) as [p ->].
Qed.

Lemma all_converted (doc : PdfJs.PDFDocumentProxy) (cs : list PdfJs.OutlineNode) :
  Forall (fun c => convertOutlineItemAsync c doc = Js.Ok (converted doc c)) cs ->
  Js.all (fun c => convertOutlineItemAsync c doc) cs = Js.Ok (map (converted doc) cs).
Proof.
  induction 1 as [|c cs Hc _ IH]; simpl; [reflexivity|].
  now rewrite Hc, IH.
Qed.

Lemma convertOutlineItemAsync_converted (doc : PdfJs.PDFDocumentProxy) :
  forall item, convertOutlineItemAsync item doc = Js.Ok (converted doc item).
Proof.
  apply OutlineNode_tree_ind. intros item HF.
  rewrite convertOutlineItemAsync_eq, page_for_eq. simpl.
  destruct item as [t d cs]. cbn [PdfJs.items PdfJs.title PdfJs.dest] in *.
  destruct cs as [|c cs]; [reflexivity|].
  change (0 <? List.length (c :: cs))%nat with true. cbv iota.
  now rewrite (all_converted doc _ HF).
Qed.

(** X8. On a document that opens and has an outline, [parsePDFOutline]
    returns the node-by-node conversion of the whole outline, every level
    in the order of the library: no node is dropped, added or moved, and
    no destination that fails to resolve makes the parsing fail. *)
Theorem parsePDFOutline_converts_all (f : TFile) (app : App)
  (pdfjsLib : option PdfJs.Lib) (doc : PdfJs.PDFDocumentProxy)
  (outline : list PdfJs.OutlineNode) :
  opened_document f app pdfjsLib = Js.Ok doc ->
  PdfJs.getOutline doc = Js.Ok (Some outline) ->
  fst (parsePDFOutline f app pdfjsLib) = Js.Ok (map (converted doc) outline).
Proof.
  unfold parsePDFOutline, opened_document.
  destruct (match pdfjsLib with Some lib => Js.Ok lib | None => loadPdfJs app end)
    as [lib|e]; simpl; [|discriminate].
  destruct (readBinary app f) as [buf|e]; simpl; [|discriminate].
  destruct (PdfJs.getDocument lib buf) as [doc'|e]; simpl; [|discriminate].
  intros [= ->] ->. simpl.
  destruct outline as [|n ns]; [reflexivity|].
  change (List.length (n :: ns) =? 0)%nat with false. cbv iota.
  apply all_converted, Forall_forall. intros c _.
  apply convertOutlineItemAsync_converted.
Qed.

(** X9. [parsePDFOutline] throws exactly when loading the library,
    reading the file, opening the document or reading its outline throws,
    and then with the same error. *)
Theorem parsePDFOutline_throws (f : TFile) (app : App) (pdfjsLib : option PdfJs.Lib)
  (e : string) :
  fst (parsePDFOutline f app pdfjsLib) = Js.Throw e <->
  opened_document f app pdfjsLib = Js.Throw e \/
  exists doc, opened_document f app pdfjsLib = Js.Ok doc /\
              PdfJs.getOutline doc = Js.Throw e.
Proof.
  unfold parsePDFOutline, opened_document.
  destruct (match pdfjsLib with Some lib => Js.Ok lib | None => loadPdfJs app end)
    as [lib|e0]; simpl.
  2: { split; [intros [= <-]; now left | intros [[= <-] | (doc & H & _)]; [reflexivity | discriminate]]. }
  destruct (readBinary app f) as [buf|e0]; simpl.
  2: { split; [intros [= <-]; now left | intros [[= <-] | (doc & H & _)]; [reflexivity | discriminate]]. }
  destruct (PdfJs.getDocument lib buf) as [doc|e0]; simpl.
  2: { split; [intros [= <-]; now left | intros [[= <-] | (doc & H & _)]; [reflexivity | discriminate]]. }
  destruct (PdfJs.getOutline doc) as [[outline|]|e0] eqn:Ho; simpl.
  - split.
    + destruct (List.length outline =? 0)%nat; [discriminate|].
      destruct (all_convert_returns doc outline) as [outs ->]. discriminate.
    + intros [H | (doc' & [= <-] & H)]; [discriminate | congruence].
  - split; [discriminate|].
    intros [H | (doc' & [= <-] & H)]; [discriminate | congruence].
  - split.
    + intros H. right. exists doc. split; [reflexivity | congruence].
    + intros [H | (doc' & [= <-] & H)]; [discriminate | congruence].
Qed.

(** X10. The PDF library is loaded once: a library that is in the module
    variable stays there and [loadPdfJs] has no part in the result; with
    the variable empty, the library is kept when loading succeeds, and the
    variable stays empty, for the next call to try again, when loading
    fails. *)
Theorem parsePDFOutline_library_cache (f : TFile) (app : App) :
  (forall lib app',
      readBinary app' = readBinary app ->
      snd (parsePDFOutline f app (Some lib)) = Some lib /\
      parsePDFOutline f app' (Some lib) = parsePDFOutline f app (Some lib)) /\
  (forall lib, loadPdfJs app = Js.Ok lib ->
               snd (parsePDFOutline f app None) = Some lib /\
               fst (parsePDFOutline f app None) = fst (parsePDFOutline f app (Some lib))) /\
  (forall e, loadPdfJs app = Js.Throw e -> parsePDFOutline f app None = (Js.Throw e, None)).
Proof.
  unfold parsePDFOutline. split; [|split].
  - intros lib app' H. split; [reflexivity|]. now rewrite H.
  - intros lib H. rewrite H. split; reflexivity.
  - intros e H. now rewrite H.
Qed.

(** X11. A named destination is followed one step: when the library
    looks the name up to a value that is not itself a name, the page is
    the page of that value; when it looks it up to another name, that name
    is not looked up and the page is 1. *)
Theorem resolveDestination_named (doc : PdfJs.PDFDocumentProxy) (name : string)
  (v : Js.value) :
  PdfJs.getDestination doc name = Js.Ok v ->
  (Js.is_string v = false ->
   resolveDestination doc (Js.VStr name) = resolveDestination doc v) /\
  (Js.is_string v = true -> resolveDestination doc (Js.VStr name) = Js.Ok 1%Z).
Proof.
  intros Hname. unfold resolveDestination, resolveDestination_try. rewrite Hname.
  split; intros Hv; destruct v; try discriminate; reflexivity.
Qed.

(** ** The page map *)

Module PageMapFacts.

Import PageMap.

Lemma get_set_same (m : t) (k : nat) (v : Z) : get (set m k v) k = Some v.
Proof.
  induction m as [|[k' v'] m IH]; simpl.
  - now rewrite Nat.eqb_refl.
  - destruct (k' =? k)%nat eqn:E; simpl.
    + now rewrite Nat.eqb_refl.
    + now rewrite E.
Qed.

Lemma get_set_other (m : t) (k k' : nat) (v : Z) :
  k <> k' -> get (set m k v) k' = get m k'.
Proof.
  intros Hne. induction m as [|[k0 v0] m IH]; simpl.
  - apply Nat.eqb_neq in Hne. now rewrite Hne.
  - destruct (k0 =? k)%nat eqn:E; simpl.
    + apply Nat.eqb_eq in E. subst k0.
      apply Nat.eqb_neq in Hne. now rewrite Hne.
    + now rewrite IH.
Qed.

(** An entry of the result was in the map or comes from a page of the
    loop. *)
Lemma buildPageMap_from_sound (doc : Pages) (r : nat) (p : Z) :
  forall togo i m,
    get (buildPageMap_from doc togo i m) r = Some p ->
    get m r = Some p \/
    exists j, (i <= j < i + togo)%nat /\ p = Z.of_nat j /\ getPage doc j = Js.Ok (Some r).
Proof.
  induction togo as [|togo IH]; intros i m; simpl; [now left|].
  destruct (getPage doc i) as [[r0|]|e] eqn:Hi; [| |now left].
  - intros H. apply IH in H as [H | (j & Hj & Hp & Hr)].
    + destruct (Nat.eq_dec r0 r) as [->|Hne].
      * rewrite get_set_same in H. injection H as <-.
        right. exists i. repeat split; [lia | lia | exact Hi].
      * rewrite (get_set_other _ _ _ _ Hne) in H. now left.
    + right. exists j. repeat split; [lia | lia | exact Hp | exact Hr].
  - intros H. apply IH in H as [H | (j & Hj & Hp & Hr)]; [now left|].
    right. exists j. repeat split; [lia | lia | exact Hp | exact Hr].
Qed.

(** Pages that do not carry the reference leave its entry as it is. *)
Lemma buildPageMap_from_untouched (doc : Pages) (r : nat) :
  forall togo i m,
    (forall j, (i <= j < i + togo)%nat -> getPage doc j <> Js.Ok (Some r)) ->
    get (buildPageMap_from doc togo i m) r = get m r.
Proof.
  induction togo as [|togo IH]; intros i m Hno; simpl; [reflexivity|].
  destruct (getPage doc i) as [[r0|]|e] eqn:Hi; [| |reflexivity].
  - rewrite IH by (intros j Hj; apply Hno; lia).
    apply get_set_other. intros ->. apply (Hno i); [lia | exact Hi].
  - apply IH. intros j Hj. apply Hno. lia.
Qed.

Lemma buildPageMap_from_complete (doc : Pages) (r i : nat) :
  getPage doc i = Js.Ok (Some r) ->
  forall togo i0 m,
    (i0 <= i < i0 + togo)%nat ->
    (forall j, (i0 <= j < i)%nat -> exists ref, getPage doc j = Js.Ok ref) ->
    (forall j, (i < j < i0 + togo)%nat -> getPage doc j <> Js.Ok (Some r)) ->
    get (buildPageMap_from doc togo i0 m) r = Some (Z.of_nat i).
Proof.
  intros Hi. induction togo as [|togo IH]; intros i0 m Hrange Hload Hlast; [lia|].
  simpl. destruct (Nat.eq_dec i0 i) as [->|Hne].
  - rewrite Hi. rewrite buildPageMap_from_untouched by (intros j Hj; apply Hlast; lia).
    apply get_set_same.
  - destruct (Hload i0) as [ref ->]; [lia|].
    apply IH; [lia | intros j Hj; apply Hload; lia | intros j Hj; apply Hlast; lia].
Qed.

(** The loop ends at a page that fails to load. *)
Lemma buildPageMap_from_stops (doc : Pages) :
  forall before after i m,
    (forall j, (i <= j < i + before)%nat -> exists ref, getPage doc j = Js.Ok ref) ->
    (exists e, getPage doc (i + before) = Js.Throw e) ->
    buildPageMap_from doc (before + S after) i m = buildPageMap_from doc before i m.
Proof.
  induction before as [|before IH]; intros after i m Hload [e He]; simpl.
  - rewrite Nat.add_0_r in He. now rewrite He.
  - destruct (Hload i) as [ref ->]; [lia|].
    apply IH; [intros j Hj; apply Hload; lia|].
    exists e. now replace (S i + before)%nat with (i + S before)%nat by lia.
Qed.

(** The loop reads the pages only. *)
Lemma buildPageMap_from_getPage (doc doc' : Pages) :
  getPage doc = getPage doc' ->
  forall togo i m, buildPageMap_from doc togo i m = buildPageMap_from doc' togo i m.
Proof.
  intros H. induction togo as [|togo IH]; intros i m; simpl; [reflexivity|].
  rewrite H. destruct (getPage doc' i) as [ref|e]; [apply IH | reflexivity].
Qed.

End PageMapFacts.

(** X12. Looking a reference up in the map that [buildPageMap] builds:
    an entry gives the number of a page of the document that carries the
    reference; and the page whose reference it is, is found, when the
    pages up to it load and no later page carries the same reference. *)
Theorem buildPageMap_lookup (doc : PageMap.Pages) (r : nat) :
  (forall p,
      PageMap.get (PageMap.buildPageMap doc) r = Some p ->
      exists i, p = Z.of_nat i /\ (1 <= i <= PageMap.numPages doc)%nat /\
                PageMap.getPage doc i = Js.Ok (Some r)) /\
  (forall i,
      (1 <= i <= PageMap.numPages doc)%nat ->
      (forall j, (1 <= j < i)%nat -> exists ref, PageMap.getPage doc j = Js.Ok ref) ->
      PageMap.getPage doc i = Js.Ok (Some r) ->
      (forall j, (i < j <= PageMap.numPages doc)%nat ->
                 PageMap.getPage doc j <> Js.Ok (Some r)) ->
      PageMap.get (PageMap.buildPageMap doc) r = Some (Z.of_nat i)).
Proof.
  unfold PageMap.buildPageMap. split.
  - intros p H.
    apply PageMapFacts.buildPageMap_from_sound in H as [H | (j & Hj & Hp & Hr)];
      [discriminate|].
    exists j. repeat split; [exact Hp | lia | lia | exact Hr].
  - intros i Hi Hload Hr Hlast.
    apply PageMapFacts.buildPageMap_from_complete;
      [exact Hr | lia | exact Hload | intros j Hj; apply Hlast; lia].
Qed.

(** X13. [buildPageMap] does not throw: the first page that fails to load
    ends the loop, and the map is the one of the pages before it. *)
Theorem buildPageMap_stops_at_failure (doc : PageMap.Pages) (k : nat) :
  (1 <= k <= PageMap.numPages doc)%nat ->
  (forall j, (1 <= j < k)%nat -> exists ref, PageMap.getPage doc j = Js.Ok ref) ->
  (exists e, PageMap.getPage doc k = Js.Throw e) ->
  PageMap.buildPageMap doc
  = PageMap.buildPageMap
      {| PageMap.numPages := k - 1; PageMap.getPage := PageMap.getPage doc |}.
Proof.
  intros Hk Hload Hfail. unfold PageMap.buildPageMap.
  cbn [PageMap.numPages].
  replace (PageMap.numPages doc)
    with ((k - 1) + S (PageMap.numPages doc - k))%nat by lia.
  rewrite PageMapFacts.buildPageMap_from_stops.
  - now apply PageMapFacts.buildPageMap_from_getPage.
  - intros j Hj. apply Hload. lia.
  - destruct Hfail as [e He]. exists e.
    now replace (1 + (k - 1))%nat with k by lia.
Qed.

Lemma forget_pages_convertOutlineItem (doc : PdfJs.PDFDocumentProxy)
  (pageMap : PageMap.t) :
  forall item,
    forget_pages (PageMap.convertOutlineItem item pageMap)
    = forget_pages (converted doc item).
Proof.
  apply OutlineNode_tree_ind. intros [t d cs] HF.
  cbn [PdfJs.items] in HF. destruct cs as [|c cs]; [reflexivity|].
  simpl. f_equal. f_equal.
  - inversion HF; assumption.
  - rewrite !map_map. inversion HF as [|? ? _ Hcs]; subst.
    clear HF. induction Hcs as [|x l Hx _ IH]; simpl; [reflexivity|].
    now rewrite Hx, IH.
Qed.

(** X14. The conversion with the page map and the conversion that
    resolves destinations build the same tree: the same titles,
    destinations and children in the same order; they differ in the pages
    only. *)
Theorem convertOutlineItem_same_tree (item : PdfJs.OutlineNode)
  (doc : PdfJs.PDFDocumentProxy) (pageMap : PageMap.t) (out : PDFOutlineItem) :
  convertOutlineItemAsync item doc = Js.Ok out ->
  forget_pages (PageMap.convertOutlineItem item pageMap) = forget_pages out.
Proof.
  rewrite convertOutlineItemAsync_converted. intros [= <-].
  apply forget_pages_convertOutlineItem.
Qed.

Lemma convertOutlineItem_fields (item : PdfJs.OutlineNode) (pageMap : PageMap.t) :
  page (PageMap.convertOutlineItem item pageMap)
  = PageMap.page_of pageMap (PdfJs.dest item) /\
  children (PageMap.convertOutlineItem item pageMap)
  = map (fun child => PageMap.convertOutlineItem child pageMap) (PdfJs.items item).
Proof. destruct item as [t d [|c cs]]; split; reflexivity. Qed.

(** X15. The page map is keyed by page references, which are objects: on
    an outline whose destinations are names, arrays or null, as the PDF
    library delivers them, the conversion with the page map finds no entry
    and gives page 1 to every item, whatever the map holds. *)
Theorem convertOutlineItem_pages_default (item : PdfJs.OutlineNode) (pageMap : PageMap.t) :
  Forall (fun n => forall id, PdfJs.dest n <> Js.VObj id) (outline_nodes item) ->
  Forall (fun o => page o = 1%Z) (nodes (PageMap.convertOutlineItem item pageMap)).
Proof.
  revert item.
  apply (OutlineNode_tree_ind
           (fun item =>
              Forall (fun n => forall id, PdfJs.dest n <> Js.VObj id) (outline_nodes item) ->
              Forall (fun o => page o = 1%Z)
                (nodes (PageMap.convertOutlineItem item pageMap)))).
  intros item HF Hdest.
  destruct (convertOutlineItem_fields item pageMap) as [Hpage Hchildren].
  assert (Hnodes : outline_nodes item
                   = item :: flat_map outline_nodes (PdfJs.items item))
    by (destruct item; reflexivity).
  rewrite Hnodes in Hdest. inversion Hdest as [|? ? Hd Hrest]; subst.
  rewrite nodes_eq. constructor.
  - rewrite Hpage. unfold PageMap.page_of, PageMap.get_value.
    destruct (PdfJs.dest item); try reflexivity. now elim (Hd id).
  - unfold descendants. rewrite Hchildren.
    apply Forall_flat_map, Forall_forall. intros o Ho.
    apply in_map_iff in Ho as (n & <- & Hn).
    rewrite Forall_forall in HF. apply (HF n Hn).
    apply Forall_forall. intros x Hx.
    rewrite Forall_forall in Hrest. apply Hrest.
    apply in_flat_map. now exists n.
Qed.

(** ** More on page navigation *)

(** X16. The leaf [navigateToPageInLeaf] picks when it is given none: a
    leaf of the list; none only when the list is empty; a leaf that shows
    the file when there is one; and the first leaf of the list when no
    leaf shows the file. *)
Theorem find_leaf_picks (pdfLeaves : list Nav.Leaf) (f : TFile) :
  (Nav.find_leaf pdfLeaves f = None <-> pdfLeaves = []) /\
  (forall l,
      Nav.find_leaf pdfLeaves f = Some l ->
      In l pdfLeaves /\
      ((exists l', In l' pdfLeaves /\ Nav.shows f l' = true) -> Nav.shows f l = true) /\
      ((forall l', In l' pdfLeaves -> Nav.shows f l' = false) ->
       hd_error pdfLeaves = Some l)).
Proof.
  unfold Nav.find_leaf.
  destruct (find (Nav.shows f) pdfLeaves) as [l0|] eqn:Hfind.
  - apply find_some in Hfind as [Hin Hshows]. split.
    + split; [discriminate | intros ->; destruct Hin].
    + intros l [= <-]. split; [exact Hin|]. split; [intros _; exact Hshows|].
      intros Hnone. rewrite (Hnone l0 Hin) in Hshows. discriminate.
  - split.
    + destruct pdfLeaves; simpl; split; congruence.
    + intros l Hl. split; [|split].
      * destruct pdfLeaves as [|x rest]; [discriminate|].
        injection Hl as <-. now left.
      * intros (l' & Hin & Hshows).
        rewrite (find_none _ _ Hfind l' Hin) in Hshows. discriminate.
      * intros _. exact Hl.
Qed.

(** X17. Whatever the leaves and the view are, [navigateToPageInLeaf]
    does one of seven things and nothing besides: nothing at all, one call
    of one of the three methods, one assignment of the page number, one
    input set and its change event, or the warning; and each of them
    carries the page that was asked for. *)
Theorem navigateToPageInLeaf_outcomes (pdfLeaves : list Nav.Leaf) (page : Z)
  (f : TFile) (leaf : option Nav.Leaf) :
  navigation_outcomes page f (Nav.navigateToPageInLeaf pdfLeaves page f leaf).
Proof.
  unfold navigation_outcomes, Nav.navigateToPageInLeaf.
  destruct (match leaf with Some l => Some l | None => Nav.find_leaf pdfLeaves f end)
    as [l|]; [|now left].
  destruct (Nav.view l) as [v|]; [|now left].
  destruct (Js.is_function (Nav.goToPage v)); [tauto|].
  destruct (Js.is_function (Nav.jumpToPage v)); [tauto|].
  destruct (Js.is_function (Nav.navigateToPage v)); [tauto|].
  assert (Hinput :
            forall c : option Nav.Element,
              let r := match (match c with
                              | Some el =>
                                  match Nav.numberInput el with
                                  | Some pageInput =>
                                      Some [Nav.SetInputValue pageInput page;
                                            Nav.DispatchChange pageInput]
                                  | None => None
                                  end
                              | None => None
                              end) with
                       | Some done => done
                       | None => [Nav.Warn page (path f)]
                       end in
              (exists input, r = [Nav.SetInputValue input page; Nav.DispatchChange input]) \/
              r = [Nav.Warn page (path f)]).
  { intros [el|]; simpl; [|now right].
    destruct (Nav.numberInput el) as [input|]; [left; now exists input | now right]. }
  destruct (Nav.pdfViewer v) as [viewer|].
  - destruct (Js.is_defined (Nav.currentPageNumber viewer)); [tauto|].
    destruct (Hinput (match Nav.containerEl v with
                      | Some el => Some el
                      | None => Nav.leafContainerEl l
                      end)) as [H | H]; tauto.
  - destruct (Hinput (match Nav.containerEl v with
                      | Some el => Some el
                      | None => Nav.leafContainerEl l
                      end)) as [H | H]; tauto.
Qed.

(** ** jumpToPage *)

Lemma endsWith_spec (s suffix : string) :
  endsWith s suffix = true <-> exists pre, s = (pre ++ suffix)%string.
Proof.
  induction s as [|c s IH]; cbn [endsWith].
  - rewrite orb_false_r, String.eqb_eq. split.
    + intros <-. now exists "".
    + intros [[|x pre] H]; [exact H | discriminate].
  - rewrite orb_true_iff, String.eqb_eq, IH. split.
    + intros [<- | [pre ->]]; [now exists "" | now exists (String c pre)].
    + intros [[|x pre] H]; [now left|].
      right. simpl in H. injection H as _ ->. now exists pre.
Qed.

(** X18. A click on an outline item does nothing at all when no file is
    active or when the path of the active file does not end in '.pdf'. *)
Theorem jumpToPage_without_pdf (ws : Jump.Workspace) (page : Z) :
  (Jump.getActiveFile ws = None \/
   exists f, Jump.getActiveFile ws = Some f /\
             ~ exists pre, path f = (pre ++ ".pdf")%string) ->
  Jump.jumpToPage ws page = [].
Proof.
  unfold Jump.jumpToPage. intros [-> | (f & -> & Hpath)]; [reflexivity|].
  destruct (endsWith (path f) ".pdf") eqn:E; [|reflexivity].
  apply endsWith_spec in E. now elim Hpath.
Qed.

(** X19. A click while a PDF is the active file: when the workspace has
    PDF leaves, [jumpToPage] activates the leaf that [navigateToPageInLeaf]
    would pick by itself and navigates in it at once, and opens nothing;
    when it has none, it opens the file in a new leaf, activates nothing,
    and the navigation is left to the timer, which runs only when the
    opening succeeded. *)
Theorem jumpToPage_dispatch (ws : Jump.Workspace) (page : Z) (f : TFile) :
  Jump.getActiveFile ws = Some f ->
  (exists pre, path f = (pre ++ ".pdf")%string) ->
  Jump.jumpToPage ws page =
  match Nav.find_leaf (Jump.pdfLeaves ws) f with
  | Some l =>
      Jump.SetActiveLeaf l ::
      map Jump.Now (Nav.navigateToPageInLeaf (Jump.pdfLeaves ws) page f None)
  | None =>
      Jump.OpenLinkText (path f) ::
      match Jump.openLinkText ws (path f) with
      | Js.Ok _ =>
          map Jump.Later
            (Nav.navigateToPageInLeaf (Jump.pdfLeavesLater ws) page f None)
      | Js.Throw _ => []
      end
  end.
Proof.
  intros Hactive Hpdf. apply endsWith_spec in Hpdf.
  unfold Jump.jumpToPage, Jump.activate_and_navigate. rewrite Hactive, Hpdf.
  cbn [negb]. unfold Nav.navigateToPageInLeaf, Nav.find_leaf.
  destruct (find (Nav.shows f) (Jump.pdfLeaves ws)) as [l|]; [reflexivity|].
  destruct (Jump.pdfLeaves ws) as [|l rest]; reflexivity.
Qed.

(** ** More on the plugin *)

Section MoreOnThePlugin.

Context {host : Host}.

Lemma activateView_pdfjsLib (ws : Workspace) (st : Plugin) :
  pdfjsLib (fst (activateView ws st)) = pdfjsLib st.
Proof.
  unfold activateView, run_factory.
  destruct (hd_error (outlineLeaves ws)) as [leaf|].
  - destruct (revealLeaf ws leaf) as [[|] r]; reflexivity.
  - destruct (getRightLeaf ws) as [leaf|]; [|reflexivity].
    destruct (setViewState ws leaf) as [[|] [u|e]]; simpl;
      try reflexivity; destruct (revealLeaf ws leaf) as [[|] r]; reflexivity.
Qed.

Lemma display_if_view_pdfjsLib (st : Plugin) (outline : list PDFOutlineItem) :
  pdfjsLib (display_if_view st outline) = pdfjsLib st.
Proof. unfold display_if_view. now destruct (view st). Qed.

(** X20. Once the plugin has its view, opening a PDF never fails: the
    view is given the parsed outline, or the empty outline when the parsing
    throws; it keeps its search query and its expansion flag; and the
    library that the parsing loaded is remembered. *)
Theorem updateOutlineForFile_with_view (ws : Workspace) (app : App) (f : TFile)
  (st : Plugin) (v : PDFOutlineView) :
  view st = Some v ->
  let parsed := parsePDFOutline f app (pdfjsLib st) in
  let outline := match fst parsed with Js.Ok o => o | Js.Throw _ => [] end in
  updateOutlineForFile ws app f st
  = ({| view := Some (displayOutline v outline); pdfjsLib := snd parsed |}, Js.Ok tt) /\
  searchQuery (displayOutline v outline) = searchQuery v /\
  allExpanded (displayOutline v outline) = allExpanded v.
Proof.
  intros Hv. cbv zeta. unfold updateOutlineForFile. rewrite Hv.
  destruct (parsePDFOutline f app (pdfjsLib st)) as [[o|e] lib];
    unfold display_if_view, set_view; cbn [view pdfjsLib fst snd]; rewrite ?Hv.
  - repeat split; unfold displayOutline, renderFilteredOutline;
      now destruct (List.length o =? 0)%nat.
  - repeat split.
Qed.

(** X21. The file-open listener never forgets the PDF library: a library
    that is loaded stays loaded through the event, whatever the file is and
    whether activating the view or parsing succeeds or not. *)
Theorem onFileOpen_keeps_library (ws : Workspace) (app : App) (f : option TFile)
  (st : Plugin) (lib : PdfJs.Lib) :
  pdfjsLib st = Some lib ->
  pdfjsLib (fst (onFileOpen ws app f st)) = Some lib.
Proof.
  intros Hlib. unfold onFileOpen.
  assert (Hclear : pdfjsLib (display_if_view st []) = Some lib)
    by now rewrite display_if_view_pdfjsLib.
  destruct f as [file|]; [|exact Hclear].
  destruct (extension file =? "pdf")%string; [|exact Hclear].
  unfold updateOutlineForFile.
  assert (Hens : pdfjsLib (fst (match view st with
                                | None => activateView ws st
                                | Some _ => (st, Js.Ok tt)
                                end)) = Some lib).
  { destruct (view st); [exact Hlib | now rewrite activateView_pdfjsLib]. }
  destruct (match view st with
            | None => activateView ws st
            | Some _ => (st, Js.Ok tt)
            end) as [st1 [u|e]]; cbn [fst] in Hens; [|exact Hens].
  unfold parsePDFOutline. rewrite Hens.
  destruct (_ <- readBinary app file ;; _) as [o|e];
    cbn [fst]; now rewrite display_if_view_pdfjsLib.
Qed.

(** X22. When the plugin has no view, the workspace has no outline leaf
    and the side bar gives no leaf for one, opening a PDF fails before
    anything is read or parsed, and the plugin is left as it was. *)
Theorem onFileOpen_without_side_bar (ws : Workspace) (f : TFile) (st : Plugin) :
  extension f = "pdf" ->
  view st = None ->
  outlineLeaves ws = [] ->
  getRightLeaf ws = None ->
  exists e, forall app', onFileOpen ws app' (Some f) st = (st, Js.Throw e).
Proof.
  intros Hext Hview Hleaves Hright. exists "TypeError". intros app'.
  unfold onFileOpen, updateOutlineForFile, activateView.
  apply String.eqb_eq in Hext. now rewrite Hext, Hview, Hleaves, Hright.
Qed.

End MoreOnThePlugin.

(** * The functions on the sample data *)

(** The samples run the functions with the host that lower-cases the code
    units below 256. *)
#[local] Existing Instance latin1.

Example filterOutline_sample :
  filterOutline "Intro" Sample.outline =
  [with_children Sample.part_one [Sample.leaf "Introduction" 4];
   with_children Sample.part_two []].
Proof. reflexivity. Qed.

Example filterOutline_sample_no_match :
  filterOutline "index" Sample.outline = [].
Proof. reflexivity. Qed.

(** The sharp s has no other lower-case form, and no capital among the
    code units below 256: its upper-case form is two letters. *)
Example toUpperCase_latin1_sample :
  toLowerCase Sample.strasse = ("stra" ++ Sample.eszett ++ "e")%string /\
  toLowerCase "STRASSE" = "strasse" /\
  Str.toUpperCase_latin1 Sample.strasse = Some "STRASSE" /\
  Str.toUpperCase_latin1 Sample.eszett = Some "SS".
Proof. repeat split. Qed.

(** Without its container [renderFilteredOutline] returns at once; an
    empty outline takes the container out of the content element. *)
Example renderFilteredOutline_sample :
  renderFilteredOutline new_view = new_view /\
  displayOutline new_view Sample.outline
  = {| outlineItems := Sample.outline; searchQuery := ""; allExpanded := true;
       outlineContainer := Attached; content := Tree Sample.outline false |} /\
  displayOutline (displayOutline new_view Sample.outline) []
  = {| outlineItems := []; searchQuery := ""; allExpanded := true;
       outlineContainer := Detached; content := EmptyState |}.
Proof. repeat split. Qed.

Example trim_sample : Str.trim "  a  b " = "a  b".
Proof. reflexivity. Qed.

(** A with grave, the multiplication sign, thorn, sharp s and Z. *)
Example lower_char_sample :
  map (fun n => N_of_ascii (Str.lower_char (ascii_of_N n))) [192; 215; 222; 223; 90]%N
  = [224; 215; 254; 223; 122]%N.
Proof. reflexivity. Qed.

Example includes_sample :
  Str.includes "introduction" "" = true /\
  Str.includes "introduction" "duct" = true /\
  Str.includes "introduction" "dust" = false.
Proof. repeat split. Qed.

Example convertOutlineItemAsync_sample :
  convertOutlineItemAsync Sample.chapter Sample.doc =
  Js.Ok {| title := "Chapter 1"; page := 8; dest := Js.VStr "chapter1";
           children :=
             [{| title := "Section A"; page := 12; children := [];
                 dest := Js.VArr [Js.VObj 11; Js.VStr "XYZ"] |};
              {| title := "Untitled"; page := 1; children := [];
                 dest := Js.VStr "missing" |}] |}.
Proof. reflexivity. Qed.

Example resolveDestination_sample_throw :
  resolveDestination Sample.doc (Js.VStr "broken") = Js.Ok 1%Z /\
  resolveDestination Sample.doc (Js.VArr []) = Js.Ok 1%Z /\
  resolveDestination Sample.doc (Js.VNum 4) = Js.Ok 1%Z.
Proof. repeat split. Qed.

Example navigateToPageInLeaf_sample :
  Nav.navigateToPageInLeaf [Sample.bare_leaf; Sample.pdf_leaf] 12 Sample.book None
  = [Nav.CallJumpToPage 12] /\
  Nav.navigateToPageInLeaf [Sample.bare_leaf; Sample.pdf_leaf] 12 Sample.note None
  = [Nav.Warn 12 "notes/today.md"] /\
  Nav.navigateToPageInLeaf [Sample.closed_leaf] 12 Sample.note None = [].
Proof. repeat split. Qed.

Example onFileOpen_sample_pdf :
  option_map outlineItems
    (view (fst (onFileOpen Sample.workspace Sample.app (Some Sample.book) Sample.no_view)))
  = Some [{| title := "Chapter 1"; page := 8; dest := Js.VStr "chapter1";
             children :=
               [{| title := "Section A"; page := 12; children := [];
                   dest := Js.VArr [Js.VObj 11; Js.VStr "XYZ"] |};
                {| title := "Untitled"; page := 1; children := [];
                   dest := Js.VStr "missing" |}] |};
          {| title := "Appendix"; page := 1; children := []; dest := Js.VNull |}].
Proof. reflexivity. Qed.

(** ** Instances of the theorems *)

Lemma filterOutline_keeps_matching_subtrees_witness :
  Str.all_space "Intro" = false /\
  filterOutline "Intro" Sample.outline
  = map (rebuilt "Intro") (filter (kept "Intro") Sample.outline).
Proof.
  split; [reflexivity|].
  exact (proj1 (filterOutline_keeps_matching_subtrees "Intro" Sample.outline eq_refl)).
Defined.

(** C1 as it is written fails: the title contains the query when case is
    ignored, the sharp s being SS in the other case, the query is not
    blank, and the filter drops the item. *)
Lemma filterOutline_drops_case_variant :
  contains_ignoring_case "STRASSE" Sample.eszett /\
  Str.all_space Sample.eszett = false /\
  filterOutline Sample.eszett [Sample.leaf "STRASSE" 1] = [].
Proof.
  split; [|split; reflexivity].
  exists "STRA", "SS", "E". split; [reflexivity|].
  right. exists "SS". split; reflexivity.
Qed.

Lemma filterOutline_blank_identity_witness :
  Str.all_space "   " = true /\ filterOutline "   " Sample.outline = Sample.outline.
Proof.
  split; [reflexivity|].
  apply (filterOutline_blank_identity "   " Sample.outline). reflexivity.
Defined.

Lemma filterOutline_case_insensitive_witness :
  toLowerCase "iNTRO" = toLowerCase "Intro" /\
  Str.all_space "iNTRO" = Str.all_space "Intro" /\
  filterOutline "iNTRO" Sample.outline = filterOutline "Intro" Sample.outline /\
  filterOutline (toLowerCase "Intro") Sample.outline = filterOutline "Intro" Sample.outline.
Proof.
  split; [reflexivity|]. split; [reflexivity|]. split.
  - apply (proj1 (filterOutline_case_insensitive "Intro" "iNTRO" Sample.outline));
      reflexivity.
  - apply (proj2 (filterOutline_case_insensitive "Intro" "iNTRO" Sample.outline));
      reflexivity.
Defined.

(** C6 as it is written fails: the sharp s and SS are the same letters in
    two cases, they have the same upper-case form, and the filter keeps
    the title for the one and drops it for the other. *)
Lemma filterOutline_case_variant_differs :
  case_variant "SS" Sample.eszett /\
  filterOutline Sample.eszett [Sample.leaf Sample.strasse 1]
  = [Sample.leaf Sample.strasse 1] /\
  filterOutline "SS" [Sample.leaf Sample.strasse 1] = [].
Proof.
  split; [|split; reflexivity].
  right. exists "SS". split; reflexivity.
Qed.

Lemma filterOutline_preserves_ancestors_witness :
  chain_in Sample.outline ([Sample.part_one] ++ [Sample.leaf "Introduction" 4]) /\
  matches "INTRO" (Sample.leaf "Introduction" 4) = true /\
  chain_in (filterOutline "INTRO" Sample.outline)
    (map (rebuilt "INTRO") ([Sample.part_one] ++ [Sample.leaf "Introduction" 4])).
Proof.
  assert (Hchain : chain_in Sample.outline
                     ([Sample.part_one] ++ [Sample.leaf "Introduction" 4])).
  { apply chain_step; [simpl; tauto|]. apply chain_last. simpl. tauto. }
  assert (Hm : matches "INTRO" (Sample.leaf "Introduction" 4) = true) by reflexivity.
  split; [exact Hchain|]. split; [exact Hm|].
  apply (filterOutline_preserves_ancestors "INTRO" Sample.outline
           [Sample.part_one] (Sample.leaf "Introduction" 4) Hchain Hm).
Defined.

Lemma tree_walks_visit_each_node_once_witness :
  Str.all_space "intro" = false /\
  filterOutline_visits "intro" Sample.outline
  = (filterOutline "intro" Sample.outline, flat_map nodes Sample.outline).
Proof.
  split; [reflexivity|].
  apply (proj1 (proj2 (tree_walks_visit_each_node_once "intro" Sample.outline
                         Sample.chapter Sample.doc))).
  reflexivity.
Defined.

Lemma resolveDestination_page_witness :
  looked_up Sample.doc (Js.VStr "chapter1") = Js.Ok (Js.VArr [Js.VObj 7; Js.VStr "Fit"]) /\
  PdfJs.getPageIndex Sample.doc (Js.first [Js.VObj 7; Js.VStr "Fit"]) = Js.Ok 7%Z /\
  exists p, resolveDestination Sample.doc (Js.VStr "chapter1") = Js.Ok p /\ p = (7 + 1)%Z.
Proof.
  split; [reflexivity|]. split; [reflexivity|].
  destruct (resolveDestination_page Sample.doc (Js.VStr "chapter1"))
    as (p & Hp & Harray & _).
  exists p. split; [exact Hp|].
  apply (Harray [Js.VObj 7; Js.VStr "Fit"] 7%Z); reflexivity.
Defined.

Lemma convertOutlineItemAsync_item_witness :
  Js.truthy (PdfJs.dest Sample.chapter) = true /\
  exists out,
    convertOutlineItemAsync Sample.chapter Sample.doc = Js.Ok out /\
    resolveDestination Sample.doc (PdfJs.dest Sample.chapter) = Js.Ok (page out).
Proof.
  split; [reflexivity|].
  destruct (convertOutlineItemAsync_item Sample.chapter Sample.doc)
    as (out & Hout & _ & Hpage & _).
  exists out. split; [exact Hout|]. apply Hpage. reflexivity.
Defined.

Lemma sample_doc_indexes_pages : indexes_pages Sample.doc.
Proof.
  intros ref i. destruct ref; simpl; try discriminate.
  intros [= <-]. lia.
Qed.

Lemma parsePDFOutline_items_witness :
  (forall doc, opened_document Sample.book Sample.app None = Js.Ok doc ->
               indexes_pages doc) /\
  (exists outline,
      fst (parsePDFOutline Sample.book Sample.app None) = Js.Ok outline /\
      Forall well_formed_item (flat_map nodes outline)) /\
  opened_document Sample.note Sample.app None = Js.Ok Sample.empty_doc /\
  fst (parsePDFOutline Sample.note Sample.app None) = Js.Ok [].
Proof.
  assert (Hdoc : forall doc, opened_document Sample.book Sample.app None = Js.Ok doc ->
                             indexes_pages doc).
  { intros doc [= <-]. exact sample_doc_indexes_pages. }
  split; [exact Hdoc|]. split; [|split; [reflexivity|]].
  - eexists. split; [reflexivity|].
    apply (proj1 (parsePDFOutline_items Sample.book Sample.app None) _ Hdoc).
    reflexivity.
  - apply (proj2 (parsePDFOutline_items Sample.note Sample.app None) Sample.empty_doc).
    + reflexivity.
    + left. reflexivity.
Defined.

Lemma navigateToPageInLeaf_dispatch_witness :
  target_leaf [Sample.bare_leaf; Sample.pdf_leaf] Sample.book None = Some Sample.pdf_leaf /\
  Nav.view Sample.pdf_leaf = Some Sample.pdf_view /\
  Nav.navigateToPageInLeaf [Sample.bare_leaf; Sample.pdf_leaf] 12 Sample.book None
  = match find (applicable Sample.pdf_leaf Sample.pdf_view) strategies with
    | Some s => invoke Sample.pdf_leaf Sample.pdf_view 12 s
    | None => [Nav.Warn 12 (path Sample.book)]
    end.
Proof.
  split; [reflexivity|]. split; [reflexivity|].
  apply (navigateToPageInLeaf_dispatch [Sample.bare_leaf; Sample.pdf_leaf] 12
           Sample.book None Sample.pdf_leaf Sample.pdf_view); reflexivity.
Defined.

Lemma onFileOpen_shows_empty_outline_witness :
  (exists file, Some Sample.note = Some file /\ extension file <> "pdf") /\
  shows_empty_outline
    (fst (onFileOpen Sample.workspace Sample.app (Some Sample.note) Sample.showing)) /\
  ensure_view Sample.workspace Sample.no_view
  = ({| view := Some new_view; pdfjsLib := None |}, Js.Ok tt) /\
  fst (parsePDFOutline Sample.book Sample.broken_app None) = Js.Throw "Error" /\
  shows_empty_outline
    (fst (onFileOpen Sample.workspace Sample.broken_app (Some Sample.book) Sample.no_view)).
Proof.
  assert (Hnote : exists file, Some Sample.note = Some file /\ extension file <> "pdf").
  { exists Sample.note. split; [reflexivity | discriminate]. }
  split; [exact Hnote|]. split; [|split; [reflexivity|split; [reflexivity|]]].
  - apply (proj1 (onFileOpen_shows_empty_outline Sample.workspace Sample.app
                    (Some Sample.note) Sample.showing)).
    right. exact Hnote.
  - apply (proj2 (onFileOpen_shows_empty_outline Sample.workspace Sample.broken_app
                    (Some Sample.book) Sample.no_view)
             Sample.book {| view := Some new_view; pdfjsLib := None |} "Error");
      reflexivity.
Defined.

(** With a blank query the filter returns before its loop: it visits no
    node of a forest that has one. *)
Lemma filterOutline_blank_query_visits_no_node :
  ~ Permutation (snd (filterOutline_visits "" [Sample.leaf "Chapter 1" 1]))
      (flat_map nodes [Sample.leaf "Chapter 1" 1]).
Proof.
  intros H. apply Permutation_length in H. discriminate.
Qed.

Lemma filterOutline_narrowing_witness :
  Str.includes (toLowerCase "Introd") (toLowerCase "INTRO") = true /\
  Str.all_space "Introd" = false /\
  filterOutline "Introd" (filterOutline "INTRO" Sample.outline)
  = filterOutline "Introd" Sample.outline.
Proof.
  split; [reflexivity|]. split; [reflexivity|].
  exact (filterOutline_narrowing "INTRO" "Introd" Sample.outline eq_refl eq_refl).
Defined.

Lemma filterOutline_childless_items_match_witness :
  Str.all_space "intro" = false /\
  Forall (fun n => children n = [] ->
                   Str.includes (toLowerCase (title n)) (toLowerCase "intro") = true)
    (flat_map nodes (filterOutline "intro" Sample.outline)).
Proof.
  split; [reflexivity|].
  apply (filterOutline_childless_items_match "intro" Sample.outline). reflexivity.
Defined.

Lemma renderFilteredOutline_no_matching_witness :
  outlineContainer (onSearchInput (displayOutline new_view Sample.outline) "Index")
  = Attached /\
  Str.all_space (searchQuery (onSearchInput (displayOutline new_view Sample.outline) "Index"))
  = false /\
  content (renderFilteredOutline
             (onSearchInput (displayOutline new_view Sample.outline) "Index"))
  = NoMatching /\
  forall n, In n (flat_map nodes Sample.outline) ->
            Str.includes (toLowerCase (title n)) (toLowerCase "index") = false.
Proof.
  assert (Hc : outlineContainer
                 (onSearchInput (displayOutline new_view Sample.outline) "Index")
               = Attached) by reflexivity.
  assert (Hq : Str.all_space
                 (searchQuery
                    (onSearchInput (displayOutline new_view Sample.outline) "Index"))
               = false) by reflexivity.
  split; [exact Hc|]. split; [exact Hq|]. split; [reflexivity|].
  apply (proj1 (renderFilteredOutline_no_matching
                  (onSearchInput (displayOutline new_view Sample.outline) "Index")
                  Hc Hq)).
  reflexivity.
Defined.

Lemma displayOutline_keeps_search_witness :
  outlineContainer (displayOutline new_view [Sample.part_two]) = Attached /\
  Sample.outline <> [] /\
  content (displayOutline
             (onSearchInput (displayOutline new_view [Sample.part_two]) "INTRO")
             Sample.outline)
  = Tree (filterOutline "intro" Sample.outline) false.
Proof.
  assert (H : Sample.outline <> []) by discriminate.
  assert (Hc : outlineContainer (displayOutline new_view [Sample.part_two]) = Attached)
    by reflexivity.
  split; [exact Hc|]. split; [exact H|].
  exact (proj2 (proj2 (proj2 (proj2
           (displayOutline_keeps_search (displayOutline new_view [Sample.part_two])
              "INTRO" Sample.outline Hc H))))).
Defined.

Lemma onSearchInput_blank_shows_all_witness :
  Str.all_space (toLowerCase "  ") = true /\
  outlineContainer (onSearchInput (displayOutline new_view Sample.outline) "intro")
  = Attached /\
  outlineItems (onSearchInput (displayOutline new_view Sample.outline) "intro") <> [] /\
  content (onSearchInput
             (onSearchInput (displayOutline new_view Sample.outline) "intro") "  ")
  = Tree Sample.outline false.
Proof.
  assert (H : outlineItems (onSearchInput (displayOutline new_view Sample.outline) "intro")
              <> []) by discriminate.
  assert (Hb : Str.all_space (toLowerCase "  ") = true) by reflexivity.
  assert (Hc : outlineContainer
                 (onSearchInput (displayOutline new_view Sample.outline) "intro")
               = Attached) by reflexivity.
  split; [exact Hb|]. split; [exact Hc|]. split; [exact H|].
  exact (onSearchInput_blank_shows_all
           (onSearchInput (displayOutline new_view Sample.outline) "intro") "  "
           Hb Hc H).
Defined.

Lemma parsePDFOutline_converts_all_witness :
  opened_document Sample.book Sample.app None = Js.Ok Sample.doc /\
  PdfJs.getOutline Sample.doc = Js.Ok (Some [Sample.chapter; Sample.appendix]) /\
  fst (parsePDFOutline Sample.book Sample.app None)
  = Js.Ok (map (converted Sample.doc) [Sample.chapter; Sample.appendix]).
Proof.
  split; [reflexivity|]. split; [reflexivity|].
  exact (parsePDFOutline_converts_all Sample.book Sample.app None Sample.doc
           [Sample.chapter; Sample.appendix] eq_refl eq_refl).
Defined.

Lemma parsePDFOutline_throws_witness :
  (exists doc, opened_document Sample.book Sample2.unreadable_app None = Js.Ok doc /\
               PdfJs.getOutline doc = Js.Throw "Invalid PDF structure") /\
  fst (parsePDFOutline Sample.book Sample2.unreadable_app None)
  = Js.Throw "Invalid PDF structure".
Proof.
  assert (H : exists doc,
             opened_document Sample.book Sample2.unreadable_app None = Js.Ok doc /\
             PdfJs.getOutline doc = Js.Throw "Invalid PDF structure").
  { exists Sample2.unreadable_doc. split; reflexivity. }
  split; [exact H|].
  apply (proj2 (parsePDFOutline_throws Sample.book Sample2.unreadable_app None
                  "Invalid PDF structure")).
  right. exact H.
Defined.

Lemma parsePDFOutline_library_cache_witness :
  loadPdfJs Sample.app = Js.Ok Sample.lib /\
  snd (parsePDFOutline Sample.book Sample.app None) = Some Sample.lib /\
  loadPdfJs Sample.broken_app = Js.Throw "Error" /\
  parsePDFOutline Sample.book Sample.broken_app None = (Js.Throw "Error", None).
Proof.
  split; [reflexivity|]. split; [|split; [reflexivity|]].
  - exact (proj1 (proj1 (proj2 (parsePDFOutline_library_cache Sample.book Sample.app))
                    Sample.lib eq_refl)).
  - exact (proj2 (proj2 (parsePDFOutline_library_cache Sample.book Sample.broken_app))
             "Error" eq_refl).
Defined.

Lemma resolveDestination_named_witness :
  PdfJs.getDestination Sample.doc "chapter1" = Js.Ok (Js.VArr [Js.VObj 7; Js.VStr "Fit"]) /\
  resolveDestination Sample.doc (Js.VStr "chapter1")
  = resolveDestination Sample.doc (Js.VArr [Js.VObj 7; Js.VStr "Fit"]).
Proof.
  split; [reflexivity|].
  exact (proj1 (resolveDestination_named Sample.doc "chapter1"
                  (Js.VArr [Js.VObj 7; Js.VStr "Fit"]) eq_refl) eq_refl).
Defined.

Lemma buildPageMap_lookup_witness :
  (1 <= 3 <= PageMap.numPages Sample2.pages)%nat /\
  PageMap.getPage Sample2.pages 3 = Js.Ok (Some 42%nat) /\
  PageMap.get (PageMap.buildPageMap Sample2.pages) 42 = Some 3%Z.
Proof.
  split; [simpl; lia|]. split; [reflexivity|].
  apply (proj2 (buildPageMap_lookup Sample2.pages 42) 3%nat).
  - simpl; lia.
  - intros j Hj. assert (Hc : j = 1%nat \/ j = 2%nat) by lia.
    destruct Hc as [-> | ->]; eexists; reflexivity.
  - reflexivity.
  - simpl. intros j Hj. lia.
Defined.

Lemma buildPageMap_stops_at_failure_witness :
  PageMap.buildPageMap
    {| PageMap.numPages := 6; PageMap.getPage := PageMap.getPage Sample2.pages |}
  = PageMap.buildPageMap Sample2.pages.
Proof.
  apply (buildPageMap_stops_at_failure
           {| PageMap.numPages := 6; PageMap.getPage := PageMap.getPage Sample2.pages |}
           4%nat).
  - simpl; lia.
  - intros j Hj. assert (Hc : j = 1%nat \/ j = 2%nat \/ j = 3%nat) by lia.
    destruct Hc as [-> | [-> | ->]]; eexists; reflexivity.
  - eexists. reflexivity.
Defined.

Lemma convertOutlineItem_same_tree_witness :
  convertOutlineItemAsync Sample.chapter Sample.doc
  = Js.Ok (converted Sample.doc Sample.chapter) /\
  forget_pages (PageMap.convertOutlineItem Sample.chapter
                  (PageMap.buildPageMap Sample2.pages))
  = forget_pages (converted Sample.doc Sample.chapter).
Proof.
  split; [reflexivity|].
  apply (convertOutlineItem_same_tree Sample.chapter Sample.doc
           (PageMap.buildPageMap Sample2.pages)).
  reflexivity.
Defined.

Lemma convertOutlineItem_pages_default_witness :
  Forall (fun n => forall id, PdfJs.dest n <> Js.VObj id) (outline_nodes Sample.chapter) /\
  Forall (fun o => page o = 1%Z)
    (nodes (PageMap.convertOutlineItem Sample.chapter
              (PageMap.buildPageMap Sample2.pages))).
Proof.
  assert (H : Forall (fun n => forall id, PdfJs.dest n <> Js.VObj id)
                (outline_nodes Sample.chapter)).
  { repeat constructor; intros id; discriminate. }
  split; [exact H|].
  exact (convertOutlineItem_pages_default Sample.chapter
           (PageMap.buildPageMap Sample2.pages) H).
Defined.

Lemma find_leaf_picks_witness :
  Nav.find_leaf [Sample.bare_leaf; Sample.pdf_leaf] Sample.book = Some Sample.pdf_leaf /\
  (exists l', In l' [Sample.bare_leaf; Sample.pdf_leaf] /\ Nav.shows Sample.book l' = true) /\
  Nav.shows Sample.book Sample.pdf_leaf = true.
Proof.
  assert (H : exists l', In l' [Sample.bare_leaf; Sample.pdf_leaf] /\
                         Nav.shows Sample.book l' = true).
  { exists Sample.pdf_leaf. split; [simpl; tauto | reflexivity]. }
  split; [reflexivity|]. split; [exact H|].
  exact (proj1 (proj2 (proj2 (find_leaf_picks [Sample.bare_leaf; Sample.pdf_leaf]
                                Sample.book) Sample.pdf_leaf eq_refl)) H).
Defined.

Lemma jumpToPage_without_pdf_witness :
  (exists f, Jump.getActiveFile Sample2.writing = Some f /\
             ~ exists pre, path f = (pre ++ ".pdf")%string) /\
  Jump.jumpToPage Sample2.writing 12 = [].
Proof.
  assert (H : exists f, Jump.getActiveFile Sample2.writing = Some f /\
                        ~ exists pre, path f = (pre ++ ".pdf")%string).
  { exists Sample.note. split; [reflexivity|].
    intros Hex. apply endsWith_spec in Hex. discriminate. }
  split; [exact H|].
  apply (jumpToPage_without_pdf Sample2.writing 12). right. exact H.
Defined.

Lemma jumpToPage_dispatch_witness :
  Jump.getActiveFile Sample2.reading = Some Sample.book /\
  (exists pre, path Sample.book = (pre ++ ".pdf")%string) /\
  Jump.jumpToPage Sample2.reading 12
  = [Jump.SetActiveLeaf Sample.pdf_leaf; Jump.Now (Nav.CallJumpToPage 12)] /\
  Jump.jumpToPage Sample2.unopened 12
  = [Jump.OpenLinkText "books/book.pdf"; Jump.Later (Nav.CallJumpToPage 12)].
Proof.
  assert (H : exists pre, path Sample.book = (pre ++ ".pdf")%string)
    by (exists "books/book"; reflexivity).
  split; [reflexivity|]. split; [exact H|]. split.
  - exact (jumpToPage_dispatch Sample2.reading 12 Sample.book eq_refl H).
  - exact (jumpToPage_dispatch Sample2.unopened 12 Sample.book eq_refl H).
Defined.

Lemma updateOutlineForFile_with_view_witness :
  view Sample.showing = Some (displayOutline new_view Sample.outline) /\
  snd (updateOutlineForFile Sample.workspace Sample.broken_app Sample.book
         {| view := view Sample.showing; pdfjsLib := None |}) = Js.Ok tt.
Proof.
  split; [reflexivity|].
  exact (f_equal snd
           (proj1 (updateOutlineForFile_with_view Sample.workspace Sample.broken_app
                     Sample.book {| view := view Sample.showing; pdfjsLib := None |}
                     (displayOutline new_view Sample.outline) eq_refl))).
Defined.

Lemma onFileOpen_keeps_library_witness :
  pdfjsLib Sample.showing = Some Sample.lib /\
  pdfjsLib (fst (onFileOpen Sample.workspace Sample.broken_app (Some Sample.book)
                   Sample.showing)) = Some Sample.lib.
Proof.
  split; [reflexivity|].
  exact (onFileOpen_keeps_library Sample.workspace Sample.broken_app (Some Sample.book)
           Sample.showing Sample.lib eq_refl).
Defined.

Lemma onFileOpen_without_side_bar_witness :
  extension Sample.book = "pdf" /\
  view Sample.no_view = None /\
  outlineLeaves Sample2.no_right_leaf = [] /\
  getRightLeaf Sample2.no_right_leaf = None /\
  exists e, forall app',
      onFileOpen Sample2.no_right_leaf app' (Some Sample.book) Sample.no_view
      = (Sample.no_view, Js.Throw e).
Proof.
  repeat (split; [reflexivity|]).
  exact (onFileOpen_without_side_bar Sample2.no_right_leaf Sample.book
           Sample.no_view eq_refl eq_refl eq_refl eq_refl).
Defined.
